(** * ProtectEd-server: avatar lifecycle

    A shallow embedding of the avatar code of the profile backend:
    - [services/AvatarService.js]: [uploadAvatar], [deleteAvatar],
      [validateImage], [getDefaultAvatar];
    - [model/User.js]: [getAvatarUrl] and the [beforeDestroy] hook;
    - [model/index.js]: the names the model registry exports;
    - [controller/ProfileController.js]: the [uploadAvatar] and
      [deleteAvatar] request handlers.

    Strings are byte strings holding the UTF-8 form of the JavaScript string;
    [null] and [undefined] are [None].  Effects (the object store, the user
    table, thrown errors and rejected promises) are threaded through a small
    state-and-exception monad in which a [try]/[catch] keeps the effects the
    body made before it threw, as in JavaScript.  Console output is not
    modelled. *)

From stdpp Require Import gmap strings list.
From Stdlib Require Import NArith DecimalString Ascii.
From Stdlib Require DecimalPos DecimalN.

Local Open Scope N_scope.

(** ** JavaScript primitives the code relies on *)

Module JS.

(** [if (v)] on a value that is a string, [null] or [undefined]: the empty
    string is falsy, like [null].  The result is the string when [v] is
    truthy. *)
Definition truthy (v : option string) : option string :=
  match v with
  | Some (String c s) => Some (String c s)
  | _ => None
  end.

(** [a || b] where [b] is a string. *)
Definition or_else (a : option string) (b : string) : string :=
  match truthy a with
  | Some s => s
  | None => b
  end.

(** A value interpolated in a template literal or coerced by a string
    method: [undefined] prints as the word. *)
Definition template (v : option string) : string :=
  match v with
  | Some s => s
  | None => "undefined"
  end.

(** [s.startsWith(pat)]. *)
Fixpoint startsWith (s pat : string) {struct pat} : bool :=
  match pat, s with
  | EmptyString, _ => true
  | String _ _, EmptyString => false
  | String p pat', String c s' => Ascii.eqb c p && startsWith s' pat'
  end.

(** [s.includes(pat)]: [pat] occurs somewhere in [s]. *)
Fixpoint includes (s pat : string) : bool :=
  startsWith s pat ||
  match s with
  | EmptyString => false
  | String _ s' => includes s' pat
  end.

Fixpoint drop (n : nat) (s : string) : string :=
  match n, s with
  | O, _ => s
  | S _, EmptyString => EmptyString
  | S n', String _ s' => drop n' s'
  end.

(** [s.replace(pat, r)] with a string pattern: only the first occurrence is
    replaced.  (The code only passes the empty replacement, so the dollar
    patterns of a replacement string play no part.) *)
Fixpoint replace (s pat r : string) : string :=
  if startsWith s pat then r +:+ drop (String.length pat) s
  else match s with
       | EmptyString => EmptyString
       | String c s' => String c (replace s' pat r)
       end.

(** [String(n)] and a number inside a template literal, for the
    non-negative integers the code prints (row ids, millisecond clocks). *)
Definition number_to_string (n : N) : string :=
  NilZero.string_of_uint (N.to_uint n).

(** [encodeURIComponent]: letters, digits and [- _ . ! ~ * ' ( )] are kept,
    every other byte of the UTF-8 form becomes [%XX] in upper-case hex. *)
Definition unreserved (c : ascii) : bool :=
  let n := N_of_ascii c in
  ((65 <=? n) && (n <=? 90)) || ((97 <=? n) && (n <=? 122)) ||
  ((48 <=? n) && (n <=? 57)) ||
  bool_decide (c ∈ ["-"; "_"; "."; "!"; "~"; "*"; "'"; "("; ")"]%char).

Definition hex_digit (n : N) : ascii :=
  if n <? 10 then ascii_of_N (48 + n) else ascii_of_N (55 + n).

Definition percent_encode (c : ascii) : string :=
  let n := N_of_ascii c in
  String "%" (String (hex_digit (n / 16)) (String (hex_digit (n mod 16)) EmptyString)).

Fixpoint encodeURIComponent (s : string) : string :=
  match s with
  | EmptyString => EmptyString
  | String c s' =>
      (if unreserved c then String c EmptyString else percent_encode c)
      +:+ encodeURIComponent s'
  end.

End JS.

(** ** Errors, outcomes and effects *)

(** The error values that travel through [throw], rejected promises and
    [next(error)]. *)
Inductive JsError :=
| Error (message : string)
| TypeError (message : string).

Inductive Outcome (A : Type) :=
| Return (a : A)
| Throw (e : JsError).
Arguments Return {A} a.
Arguments Throw {A} e.

Definition Buffer := list Byte.byte.

(** Requests that leave the process for the object store.  [PutObject] and
    [DeleteObject] are the commands [AvatarService] sends through its S3
    client; [DeleteFile] is a call of [FileStorageService.deleteFile]. *)
Inductive StoreRequest :=
| PutObject (Bucket : option string) (Key : string) (Body : Buffer)
            (ContentType CacheControl : string) (Metadata : list (string * string))
| DeleteObject (Bucket : option string) (Key : string)
| DeleteFile (key : string).

Definition is_put (r : StoreRequest) : bool :=
  match r with PutObject _ _ _ _ _ _ => true | _ => false end.

Module Users.
(** A row of the table [Users], with the columns the avatar code reads or
    assigns ([email] is [allowNull: false]; the other three strings are
    nullable).  The other columns, the [updated_at] stamp that every save
    renews among them, are not part of the row. *)
Record row := mk {
  id : N;
  email : string;
  name : option string;
  avatar_key : option string;
  avatar_url : option string
}.
End Users.

Module Files.
(** A row of the file ledger. *)
Record row := mk { file_key : string; uploaded_by : N }.
End Files.

(** [process.env]: each variable is a string or [undefined]. *)
Record Env := {
  R2_BUCKET_NAME : option string;
  R2_PUBLIC_URL : option string;
  OLD_R2_PUBLIC_URL : option string
}.

(** What the outside answers during one run: the image library, the random
    source, the clock, the object store (its answer may depend on the requests
    made so far) and the database driver. [None] from the last four means
    success. *)
Record World := {
  sharp : Buffer -> JsError + Buffer;
  randomBytes16_hex : string;
  Date_now : N;
  Date_toISOString : string;
  respond : list StoreRequest -> StoreRequest -> option JsError;
  findByPk_rejects : option JsError;
  save_rejects : option JsError;
  findAll_rejects : option JsError
}.

(** The state the code can change: the user table, the file ledger and the
    requests issued to the object store, oldest first. *)
Record Sys := {
  users : gmap N Users.row;
  files : list Files.row;
  store_log : list StoreRequest
}.

(** An operation: from a state to an outcome and the state it leaves. *)
Definition M (A : Type) : Type := Sys -> Outcome A * Sys.

Definition ret {A} (a : A) : M A := fun s => (Return a, s).
Definition throw {A} (e : JsError) : M A := fun s => (Throw e, s).
Definition bind {A B} (m : M A) (k : A -> M B) : M B :=
  fun s => match m s with
           | (Return a, s') => k a s'
           | (Throw e, s') => (Throw e, s')
           end.
(** [try { body } catch (error) { handler }], also [promise.catch(handler)]:
    what the body did before it threw stays done. *)
Definition try_catch {A} (body : M A) (handler : JsError -> M A) : M A :=
  fun s => match body s with
           | (Return a, s') => (Return a, s')
           | (Throw e, s') => handler e s'
           end.

Declare Scope js_scope.
Delimit Scope js_scope with js.
Notation "'let!' x ':=' m 'in' k" := (bind m (fun x => k))
  (at level 10, x name, m at level 100, k at level 200) : js_scope.
Notation "'do!' m 'in' k" := (bind m (fun _ => k))
  (at level 10, m at level 100, k at level 200) : js_scope.
Local Open Scope js_scope.

(** [await Promise.all(ps)] over operations that were all started when the
    array was built: every one of them runs; the result rejects if one of them
    did. *)
Fixpoint Promise_all {A} (ps : list (M A)) : M (list A) :=
  match ps with
  | [] => ret []
  | p :: ps' =>
      fun s =>
        let '(o, s1) := p s in
        let '(os, s2) := Promise_all ps' s1 in
        (match o, os with
         | Throw e, _ => Throw e
         | Return _, Throw e => Throw e
         | Return a, Return l => Return (a :: l)
         end, s2)
  end.

Definition log_request (s : Sys) (r : StoreRequest) : Sys :=
  {| users := users s; files := files s; store_log := store_log s ++ [r] |}.

(** One request to the object store: it is recorded, and the store's answer
    decides between resolving and rejecting. *)
Definition request (w : World) (r : StoreRequest) : M unit :=
  fun s =>
    match respond w (store_log s) r with
    | None => (Return tt, log_request s r)
    | Some e => (Throw e, log_request s r)
    end.

Definition of_sum {A} (r : JsError + A) : M A :=
  match r with
  | inl e => throw e
  | inr a => ret a
  end.

Definition rejects (r : option JsError) : M unit :=
  match r with
  | Some e => throw e
  | None => ret tt
  end.

(** ** services/AvatarService.js *)

(** The file object the upload middleware hands over. *)
Record MulterFile := {
  size : N;
  mimetype : string;
  buffer : Buffer;
  path : option string
}.

Record ValidationResult := { valid : bool; errors : list string }.

Module AvatarService.

Definition uploadAvatar (env : Env) (w : World) (fileBuffer : Buffer) (userId : N)
  : M string :=
  try_catch
    (let! processedImage := of_sum (sharp w fileBuffer) in
     let hash := randomBytes16_hex w in
     let timestamp := Date_now w in
     let filename :=
       "avatars/" +:+ JS.number_to_string userId +:+ "/" +:+
       JS.number_to_string timestamp +:+ "-" +:+ hash +:+ ".jpg" in
     let command :=
       PutObject (R2_BUCKET_NAME env) filename processedImage
         "image/jpeg" "public, max-age=31536000"
         [("userId", JS.number_to_string userId);
          ("uploadedAt", Date_toISOString w)] in
     do! request w command in
     let publicUrl := JS.template (R2_PUBLIC_URL env) +:+ "/" +:+ filename in
     ret publicUrl)
    (fun error => throw (Error "Failed to upload avatar")).

Definition deleteAvatar (env : Env) (w : World) (avatarUrl : option string)
  : M bool :=
  try_catch
    (match JS.truthy avatarUrl with
     | None => ret false
     | Some url =>
         if negb (JS.includes url (JS.template (R2_PUBLIC_URL env))) then ret false
         else
           let key := JS.replace url (JS.template (R2_PUBLIC_URL env) +:+ "/") "" in
           let command := DeleteObject (R2_BUCKET_NAME env) key in
           do! request w command in
           ret true
     end)
    (fun error => ret false).

Definition validateImage (file : MulterFile) : ValidationResult :=
  let errors := [] in
  let errors :=
    if 5 * 1024 * 1024 <? size file
    then errors ++ ["File size exceeds 5MB limit"] else errors in
  let allowedTypes := ["image/jpeg"; "image/png"; "image/jpg"] in
  let errors :=
    if negb (bool_decide (mimetype file ∈ allowedTypes))
    then errors ++ ["Invalid file type. Only JPEG and PNG are allowed"] else errors in
  {| valid := bool_decide (length errors = 0%nat); errors := errors |}.

(** The parameter defaults to ['User'] when it is [undefined]. *)
Definition getDefaultAvatar (name : option string) : string :=
  let name := default "User" name in
  "https://ui-avatars.com/api/?name=" +:+ JS.encodeURIComponent name +:+
  "&background=random&size=400".

End AvatarService.

(** ** services/FileStorageService.js *)

Module FileStorageService.

(** Modelled from the spec: [FileStorageService.constructUrl] is called by
    the user model but its file is not among the sources.  The canonical
    URL joins the current public base URL with the key
    (base [https://current.example], key [avatars/9/a.jpg] give
    [https://current.example/avatars/9/a.jpg]), the way
    [AvatarService.uploadAvatar] builds its public URL. *)
Definition constructUrl (env : Env) (key : string) : string :=
  JS.template (R2_PUBLIC_URL env) +:+ "/" +:+ key.

(** Modelled from the spec: [FileStorageService.deleteFile] is not among the
    sources.  It is the object store's [delete(key) -> success|failure]:
    one request, and a rejected promise on failure. *)
Definition deleteFile (w : World) (key : string) : M unit :=
  request w (DeleteFile key).

(** Modelled from the spec: [FileStorageService.getDefaultAvatar] is not
    among the sources.  It yields the default-avatar URL for a third-party
    initials renderer, parameterized by the given name; the sibling
    [AvatarService.getDefaultAvatar], which is in the sources, is taken for
    it. *)
Definition getDefaultAvatar (name : option string) : string :=
  AvatarService.getDefaultAvatar name.

End FileStorageService.

(** ** model/index.js *)

Module index.
(** The properties of [module.exports]. *)
Definition exports : list string :=
  ["sequelize"; "Sequelize"; "User"; "Session"; "TokenBlacklist"].
End index.

(** ** The file ledger *)

Module File.
(** Modelled from the spec: the [File] model is not among the sources.
    [File.findAll({ where: { uploaded_by: id } })] is the ledger query
    "all files owned by user X". *)
Definition findAll (w : World) (id : N) : M (list Files.row) :=
  do! rejects (findAll_rejects w) in
  fun s => (Return (filter (fun f => Files.uploaded_by f = id) (files s)), s).
End File.

(** ** model/User.js *)

Module User.
Import Users.

Definition getAvatarUrl (env : Env) (this : row) : string :=
  match JS.truthy (avatar_key this) with
  | Some avatar_key => FileStorageService.constructUrl env avatar_key
  | None =>
      match JS.truthy (avatar_url this) with
      | Some avatar_url =>
          match JS.truthy (OLD_R2_PUBLIC_URL env) with
          | Some oldR2Domain =>
              if JS.includes avatar_url oldR2Domain then
                let key := JS.replace avatar_url (oldR2Domain +:+ "/") "" in
                FileStorageService.constructUrl env key
              else avatar_url
          | None => avatar_url
          end
      | None =>
          FileStorageService.getDefaultAvatar
            (Some (JS.or_else (name this) (email this)))
      end
  end.

(** [User.findByPk(id)]: the row, or [null]. *)
Definition findByPk (w : World) (id : N) : M (option row) :=
  do! rejects (findByPk_rejects w) in
  fun s => (Return (users s !! id), s).

(** [user.save()]: the instance is written back under its id.  The row given
    is what the UPDATE leaves in the modelled columns; an attribute that was
    assigned [undefined] is left out of the UPDATE, so a caller passes the
    value the column already holds for it.  (The [updated_at] stamp that the
    save renews is outside the row.) *)
Definition save (w : World) (user : row) : M unit :=
  do! rejects (save_rejects w) in
  fun s => (Return tt,
            {| users := <[Users.id user := user]> (users s);
               files := files s; store_log := store_log s |}).

(** The [beforeDestroy] hook.  [exports] is what [require('./index')]
    yields; destructuring a name it lacks gives [undefined], and calling a
    method on that throws. *)
Definition beforeDestroy (exports : list string) (w : World) (user : row) : M unit :=
  do! match JS.truthy (avatar_key user) with
      | Some avatar_key =>
          try_catch (FileStorageService.deleteFile w avatar_key)
                    (fun error => ret tt)
      | None => ret tt
      end in
  try_catch
    (let! userFiles :=
       if bool_decide ("File" ∈ exports) then File.findAll w (id user)
       else throw (TypeError "Cannot read properties of undefined (reading 'findAll')") in
     if (0 <? length userFiles)%nat then
       let deletePromises :=
         map (fun file =>
                try_catch (FileStorageService.deleteFile w (Files.file_key file))
                          (fun err => ret tt))
             userFiles in
       do! Promise_all deletePromises in
       ret tt
     else ret tt)
    (fun error => ret tt).

End User.

(** ** controller/ProfileController.js *)

(** [req.user.id] as set by the authentication middleware, and [req.file]. *)
Record Request := { req_user_id : N; req_file : option MulterFile }.

(** What a handler answers: [res.status(..).json({ message, avatar_url })]
    (an [undefined] [avatar_url] is left out of the body) or [next(error)]. *)
Inductive Response :=
| json (status : N) (message : string) (avatar_url : option string)
| next (error : JsError).

(** The handler's [try { .. } catch (error) { next(error) }]. *)
Definition handle (body : M Response) : Sys -> Response * Sys :=
  fun s => match body s with
           | (Return r, s') => (r, s')
           | (Throw e, s') => (next e, s')
           end.

Module ProfileController.
Import Users.

Definition set_avatar_url (user : row) (v : option string) : row :=
  {| id := id user; email := email user; name := name user;
     avatar_key := avatar_key user; avatar_url := v |}.

(** What the avatar_url column holds once [user.avatar_url = v] has been
    saved, for a [v] that is a string or [undefined] ([None]): an [undefined]
    attribute is left out of the UPDATE, and the column keeps its value. *)
Definition saved_avatar_url (user : row) (v : option string) : option string :=
  match v with
  | Some url => Some url
  | None => avatar_url user
  end.

Definition uploadAvatar (w : World) (req : Request) : Sys -> Response * Sys :=
  handle
    (match req_file req with
     | None => ret (json 400 "No file uploaded" None)
     | Some file =>
         let avatarUrl := path file in
         let! user := User.findByPk w (req_user_id req) in
         match user with
         | None => throw (TypeError "Cannot set properties of null (setting 'avatar_url')")
         | Some user =>
             let user := set_avatar_url user (saved_avatar_url user avatarUrl) in
             do! User.save w user in
             ret (json 200 "Avatar uploaded successfully" avatarUrl)
         end
     end).

Definition deleteAvatar (env : Env) (w : World) (req : Request) : Sys -> Response * Sys :=
  handle
    (let! user := User.findByPk w (req_user_id req) in
     match user with
     | None => throw (TypeError "Cannot set properties of null (setting 'avatar_url')")
     | Some user =>
         let user := set_avatar_url user None in
         do! User.save w user in
         ret (json 200 "Avatar removed successfully" (Some (User.getAvatarUrl env user)))
     end).

End ProfileController.

(** ** Notions used in the statements *)

(** The state after some more requests went out. *)
Definition log_requests (s : Sys) (rs : list StoreRequest) : Sys :=
  {| users := users s; files := files s; store_log := store_log s ++ rs |}.

(** The key the pipeline generates for a user. *)
Definition generated_key (w : World) (userId : N) : string :=
  "avatars/" +:+ JS.number_to_string userId +:+ "/" +:+
  JS.number_to_string (Date_now w) +:+ "-" +:+ randomBytes16_hex w +:+ ".jpg".

(** The put the pipeline issues for a transformed image. *)
Definition put_command (env : Env) (w : World) (img : Buffer) (userId : N) : StoreRequest :=
  PutObject (R2_BUCKET_NAME env) (generated_key w userId) img
    "image/jpeg" "public, max-age=31536000"
    [("userId", JS.number_to_string userId); ("uploadedAt", Date_toISOString w)].

(** The delete [deleteAvatar] issues for a URL. *)
Definition delete_command (env : Env) (url : string) : StoreRequest :=
  DeleteObject (R2_BUCKET_NAME env)
    (JS.replace url (JS.template (R2_PUBLIC_URL env) +:+ "/") "").

(** The delete the hook issues for the avatar. *)
Definition avatar_requests (user : Users.row) : list StoreRequest :=
  match JS.truthy (Users.avatar_key user) with
  | Some key => [DeleteFile key]
  | None => []
  end.

(** The deletes the hook issues for the files the user owns. *)
Definition file_requests (w : World) (exports : list string) (user : Users.row) (s : Sys)
  : list StoreRequest :=
  if bool_decide ("File" ∈ exports) then
    match findAll_rejects w with
    | None => map (fun file => DeleteFile (Files.file_key file))
                  (filter (fun f => Files.uploaded_by f = Users.id user) (files s))
    | Some _ => []
    end
  else [].

(** The state after a handler stored [v] in the avatar_url column of [user]. *)
Definition write_row (s : Sys) (user : Users.row) (v : option string) : Sys :=
  {| users := <[Users.id user := ProfileController.set_avatar_url user v]> (users s);
     files := files s;
     store_log := store_log s |}.

(** ** Fixtures *)

Definition env0 : Env :=
  {| R2_BUCKET_NAME := Some "protected-avatars";
     R2_PUBLIC_URL := Some "https://current.example";
     OLD_R2_PUBLIC_URL := Some "https://old.example/files" |}.

(** A user with a current key and a legacy URL. *)
Definition ann : Users.row :=
  Users.mk 7 "ann@example.org" (Some "Ann Lee")
           (Some "avatars/7/a.jpg") (Some "https://cdn.example/ann.png").

(** A user with no avatar data and no name. *)
Definition bob : Users.row := Users.mk 8 "bob@example.org" None None None.

(** A user who only has a legacy URL under the old domain. *)
Definition cyd : Users.row :=
  Users.mk 9 "cyd@example.org" (Some "Cyd") None
           (Some "https://old.example/files/avatars/9/a.jpg").

(** The first bytes of a JPEG stream, standing for a transformed image. *)
Definition jpeg_soi : Buffer := [Byte.xff; Byte.xd8; Byte.xff; Byte.xe0].

(** An object store that accepts everything, an image library that decodes
    everything. *)
Definition w_ok : World :=
  {| sharp := fun _ => inr jpeg_soi;
     randomBytes16_hex := "00112233445566778899aabbccddeeff";
     Date_now := 1730000000123;
     Date_toISOString := "2024-10-27T03:33:20.123Z";
     respond := fun _ _ => None;
     findByPk_rejects := None;
     save_rejects := None;
     findAll_rejects := None |}.

(** The image library cannot decode the payload. *)
Definition w_undecodable : World :=
  {| sharp := fun _ => inl (Error "Input buffer contains unsupported image format");
     randomBytes16_hex := randomBytes16_hex w_ok;
     Date_now := Date_now w_ok;
     Date_toISOString := Date_toISOString w_ok;
     respond := fun _ _ => None;
     findByPk_rejects := None;
     save_rejects := None;
     findAll_rejects := None |}.

(** The object store rejects every request. *)
Definition w_store_down : World :=
  {| sharp := sharp w_ok;
     randomBytes16_hex := randomBytes16_hex w_ok;
     Date_now := Date_now w_ok;
     Date_toISOString := Date_toISOString w_ok;
     respond := fun _ _ => Some (Error "connect ETIMEDOUT");
     findByPk_rejects := None;
     save_rejects := None;
     findAll_rejects := None |}.

(** The object store rejects every second request. *)
Definition w_flaky : World :=
  {| sharp := sharp w_ok;
     randomBytes16_hex := randomBytes16_hex w_ok;
     Date_now := Date_now w_ok;
     Date_toISOString := Date_toISOString w_ok;
     respond := fun log _ => if Nat.odd (length log)
                             then Some (Error "503 Slow Down") else None;
     findByPk_rejects := None;
     save_rejects := None;
     findAll_rejects := None |}.

(** One user, and a ledger in which that user owns three of four files. *)
Definition sys0 : Sys :=
  {| users := {[ 7 := ann ]};
     files := [Files.mk "uploads/7/report.pdf" 7; Files.mk "uploads/8/notes.txt" 8;
               Files.mk "uploads/7/photo.png" 7; Files.mk "uploads/7/cv.pdf" 7];
     store_log := [] |}.

(** A six-mebibyte upload. *)
Definition big_file : MulterFile :=
  {| size := 6291456;
     mimetype := "image/jpeg";
     buffer := replicate (N.to_nat 6291456) Byte.x00;
     path := None |}.

(** A request by user 7 that carries no file. *)
Definition req_ann : Request := {| req_user_id := 7; req_file := None |}.

(** The file of an upload request as the route's in-memory storage builds it:
    a buffer and no path. *)
Definition req_ann_upload : Request :=
  {| req_user_id := 7;
     req_file := Some {| size := 4; mimetype := "image/jpeg";
                         buffer := jpeg_soi; path := None |} |}.

(** ** Further notions used in the statements *)

(** A decimal digit. *)
Definition is_digit (c : ascii) : bool :=
  (48 <=? N_of_ascii c) && (N_of_ascii c <=? 57).

(** The characters of a string. *)
Fixpoint chars (s : string) : list ascii :=
  match s with
  | EmptyString => []
  | String c s' => c :: chars s'
  end.

(** The namespace of a user in the object store. *)
Definition user_namespace (userId : N) : string :=
  "avatars/" +:+ JS.number_to_string userId +:+ "/".

(** Every row of the user table is stored under its own id. *)
Definition consistent (s : Sys) : Prop :=
  forall k u, users s !! k = Some u -> Users.id u = k.

(** A table with the three users. *)
Definition sys1 : Sys :=
  {| users := {[ 7 := ann; 8 := bob; 9 := cyd ]};
     files := files sys0;
     store_log := [] |}.

(** A request by user 8 that carries no file. *)
Definition req_bob : Request := {| req_user_id := 8; req_file := None |}.

(** The database is down. *)
Definition w_db_down : World :=
  {| sharp := sharp w_ok;
     randomBytes16_hex := randomBytes16_hex w_ok;
     Date_now := Date_now w_ok;
     Date_toISOString := Date_toISOString w_ok;
     respond := respond w_ok;
     findByPk_rejects := Some (Error "connect ECONNREFUSED");
     save_rejects := Some (Error "connect ECONNREFUSED");
     findAll_rejects := Some (Error "connect ECONNREFUSED") |}.

(** From [s] to [s'] the rows of all users but the requester, the ledger and
    the requests to the store are the same, the requester's row has the id,
    email, name and avatar_key it had, and [s'] is still consistent. *)
Definition keeps_all_but_avatar_url (req : Request) (s s' : Sys) : Prop :=
  consistent s'
  /\ files s' = files s /\ store_log s' = store_log s
  /\ (forall k, k <> req_user_id req -> users s' !! k = users s !! k)
  /\ (forall u, users s !! req_user_id req = Some u ->
                exists u', users s' !! req_user_id req = Some u'
                           /\ Users.id u' = Users.id u
                           /\ Users.email u' = Users.email u
                           /\ Users.name u' = Users.name u
                           /\ Users.avatar_key u' = Users.avatar_key u).

(** ** JSON values *)

(** The values of request bodies, model attributes and response bodies.  A
    number is kept as its literal: the code only moves numbers around. *)
#[warnings="-register-all"]
Inductive JsValue :=
| JNull
| JBool (b : bool)
| JNumber (literal : string)
| JString (s : string)
| JArray (items : list JsValue)
| JObject (fields : list (string * JsValue)).

Module Json.

(** The value of the first field named [k]. *)
Fixpoint assoc (k : string) (fields : list (string * JsValue)) : option JsValue :=
  match fields with
  | [] => None
  | (k', v) :: fields' => if String.eqb k k' then Some v else assoc k fields'
  end.

(** [v.k] for one of the attribute names the code reads: a field of an
    object, [undefined] on a string, number, boolean or array.  ([v] is
    neither [null] nor [undefined]: the code guards those.) *)
Definition get (v : JsValue) (k : string) : option JsValue :=
  match v with
  | JObject fields => assoc k fields
  | _ => None
  end.

(** [v?.k], and the properties a destructuring pattern picks. *)
Definition get_opt (v : option JsValue) (k : string) : option JsValue :=
  match v with
  | Some (JObject fields) => assoc k fields
  | _ => None
  end.

(** A number literal denotes zero when no digit of its mantissa is
    non-zero. *)
Fixpoint mantissa_zero (literal : string) : bool :=
  match literal with
  | EmptyString => true
  | String c rest =>
      if Ascii.eqb c "e" || Ascii.eqb c "E" then true
      else if (49 <=? N_of_ascii c) && (N_of_ascii c <=? 57) then false
      else mantissa_zero rest
  end.

(** [if (v)], where [None] is [undefined]. *)
Definition to_boolean (v : option JsValue) : bool :=
  match v with
  | None | Some JNull => false
  | Some (JBool b) => b
  | Some (JNumber literal) => negb (mantissa_zero literal)
  | Some (JString s) => negb (String.eqb s "")
  | Some (JArray _) | Some (JObject _) => true
  end.

(** [a || b]. *)
Definition or (a b : option JsValue) : option JsValue :=
  if to_boolean a then a else b.

(** An object literal as [res.json] sends it: a property whose value is
    [undefined] is left out. *)
Definition object (fields : list (string * option JsValue)) : JsValue :=
  JObject (omap (fun '(k, v) => match v with
                                | Some x => Some (k, x)
                                | None => None
                                end) fields).

(** A nullable string column. *)
Definition of_string (s : option string) : JsValue :=
  match s with
  | Some x => JString x
  | None => JNull
  end.

Definition of_number (n : N) : JsValue := JNumber (JS.number_to_string n).

End Json.

(** What a handler of the profile controller answers:
    [res.status(status).json(body)] or [next(error)]. *)
Inductive Reply :=
| reply (status : N) (body : JsValue)
| reply_next (error : JsError).

(** ** router/ProfileRoutes.js *)

Module ProfileRoutes.

(** [limits.fileSize] of the upload middleware. *)
Definition fileSize : N := 5 * 1024 * 1024.

(** The [fileFilter] of the upload middleware, on the file's mimetype:
    [cb(null, true)] or [cb(new Error(..))]. *)
Definition fileFilter (mimetype : string) : Outcome bool :=
  let allowedTypes := ["image/jpeg"; "image/png"; "image/jpg"] in
  if bool_decide (mimetype ∈ allowedTypes) then Return true
  else Throw (Error "Invalid file type. Only JPEG and PNG are allowed.").

End ProfileRoutes.

(** ** model/User.js: the other instance methods *)

Module UserMethods.

(** A user instance with the further columns these methods read. *)
Record instance := mk {
  row : Users.row;
  role : string;
  provider : option string;
  is_profile_public : bool;
  account_status : string;
  email_verified_at : option JsValue;
  created_at : option JsValue
}.

(** [this.provider && this.provider !== 'local']: the falsy provider itself,
    or the comparison. *)
Definition isOAuthUser (this : instance) : JsValue :=
  match JS.truthy (provider this) with
  | Some p => JBool (negb (String.eqb p "local"))
  | None => Json.of_string (provider this)
  end.

Definition isAdmin (this : instance) : bool := String.eqb (role this) "admin".

Definition isEducator (this : instance) : bool :=
  String.eqb (role this) "educator" || String.eqb (role this) "admin".

Definition isActive (this : instance) : bool :=
  String.eqb (account_status this) "active".

Definition canChangePassword (this : instance) : bool :=
  negb (Json.to_boolean (Some (isOAuthUser this))).

Definition toSafeJSON (env : Env) (this : instance) : JsValue :=
  Json.object
    [("id", Some (Json.of_number (Users.id (row this))));
     ("email", Some (JString (Users.email (row this))));
     ("name", Some (Json.of_string (Users.name (row this))));
     ("role", Some (JString (role this)));
     ("avatar_url", Some (JString (User.getAvatarUrl env (row this))));
     ("is_profile_public", Some (JBool (is_profile_public this)));
     ("account_status", Some (JString (account_status this)));
     ("provider", Some (Json.of_string (provider this)));
     ("email_verified", Some (JBool (Json.to_boolean (email_verified_at this))));
     ("created_at", created_at this)].

Definition toPublicJSON (env : Env) (this : instance) : JsValue :=
  Json.object
    [("id", Some (Json.of_number (Users.id (row this))));
     ("name", Some (Json.of_string (Users.name (row this))));
     ("avatar_url", Some (JString (User.getAvatarUrl env (row this))));
     ("is_profile_public", Some (JBool (is_profile_public this)))].

End UserMethods.

(** ** controller/ProfileController.js: viewing a profile *)

(** The user [User.findByPk] loads for the profile view, with the included
    profile and privacy settings ([None] when the association is empty). *)
Record TargetUser := {
  account : UserMethods.instance;
  profile : option JsValue;
  privacySettings : option JsValue
}.

(** What the outside answers to the profile view: the two queries, keyed by
    the route parameter, and [targetUserId == requesterId], the loose equality
    of the parameter (a string) and the requester's id (a number). *)
Record ProfileWorld := {
  findByPk_include : string -> JsError + option TargetUser;
  findUserGuardians : string -> JsError + list JsValue;
  loose_eq : string -> N -> bool
}.

Module ProfileView.
Import UserMethods.

Definition message (text : string) : JsValue :=
  Json.object [("message", Some (JString text))].

Definition profile_body (p : JsValue) : JsValue :=
  Json.object
    [("display_name", Json.get p "display_name");
     ("bio", Json.get p "bio");
     ("date_of_birth", Json.get p "date_of_birth");
     ("sex", Json.get p "sex");
     ("gender_identity", Json.get p "gender_identity");
     ("phone_number", Json.get p "phone_number");
     ("address",
      Some (Json.object
              [("line1", Json.get p "address_line1");
               ("line2", Json.get p "address_line2");
               ("city", Json.get p "city");
               ("province", Json.get p "province");
               ("postal_code", Json.get p "postal_code");
               ("country", Json.get p "country")]));
     ("emergency_contact",
      Some (Json.object
              [("name", Json.get p "emergency_contact_name");
               ("relationship", Json.get p "emergency_contact_relationship");
               ("phone", Json.get p "emergency_contact_phone")]))].

Definition guardian_body (g : JsValue) : JsValue :=
  Json.object
    [("id", Json.get g "id");
     ("guardian_type", Json.get g "guardian_type");
     ("full_name", Json.get g "full_name");
     ("relationship", Json.get g "relationship");
     ("phone_number", Json.get g "phone_number");
     ("email", Json.get g "email");
     ("address", Json.get g "address");
     ("is_primary", Json.get g "is_primary");
     ("created_at", Json.get g "created_at")].

(** The body sent to the owner. *)
Definition own_body (env : Env) (targetUser : TargetUser) (guardians : list JsValue)
  : JsValue :=
  let u := account targetUser in
  Json.object
    [("id", Some (Json.of_number (Users.id (row u))));
     ("email", Some (JString (Users.email (row u))));
     ("name", Some (Json.of_string (Users.name (row u))));
     ("role", Some (JString (role u)));
     ("avatar_url", Some (JString (User.getAvatarUrl env (row u))));
     ("is_profile_public", Some (JBool (is_profile_public u)));
     ("account_status", Some (JString (account_status u)));
     ("created_at", created_at u);
     ("profile", Some (if Json.to_boolean (profile targetUser)
                       then match profile targetUser with
                            | Some p => profile_body p
                            | None => JNull
                            end
                       else JNull));
     ("guardians", Some (JArray (map guardian_body guardians)));
     ("privacy_settings", Json.or (privacySettings targetUser) (Some JNull))].

(** The body sent to everybody else. *)
Definition public_body (env : Env) (targetUser : TargetUser) : JsValue :=
  let u := account targetUser in
  Json.object
    [("id", Some (Json.of_number (Users.id (row u))));
     ("display_name",
      Json.or (Json.get_opt (profile targetUser) "display_name")
              (Some (Json.of_string (Users.name (row u)))));
     ("bio", Json.or (Json.get_opt (profile targetUser) "bio") (Some JNull));
     ("sex", Json.or (Json.get_opt (profile targetUser) "sex") (Some JNull));
     ("avatar_url", Some (JString (User.getAvatarUrl env (row u))));
     ("is_profile_public", Some (JBool true));
     ("achievements", Some (JArray []))].

(** [getProfile]: [targetUserId] is [req.params.id], [requesterId] is
    [req.user?.id]. *)
Definition getProfile (env : Env) (pw : ProfileWorld)
    (targetUserId : string) (requesterId : option N) : Reply :=
  match findByPk_include pw targetUserId with
  | inl error => reply_next error
  | inr None => reply 404 (message "User not found")
  | inr (Some targetUser) =>
      if negb (String.eqb (account_status (account targetUser)) "active") then
        reply 403 (message "This account is no longer available")
      else if match requesterId with
              | Some id => loose_eq pw targetUserId id
              | None => false
              end then
        match findUserGuardians pw targetUserId with
        | inl error => reply_next error
        | inr guardians => reply 200 (own_body env targetUser guardians)
        end
      else if negb (is_profile_public (account targetUser)) then
        reply 403 (message "This profile is private")
      else reply 200 (public_body env targetUser)
  end.

End ProfileView.

(** ** controller/ProfileController.js: updating a profile *)

(** The attributes of a [UserProfile] instance. *)
Abbreviation Attrs := (gmap string JsValue).

(** The table of profiles, one per user id at most. *)
Abbreviation Profiles := (gmap N Attrs).

(** What the database answers to the update: whether each query rejects, and
    the instance [UserProfile.create({ user_id })] returns. *)
Record UpdateWorld := {
  findOne_rejects : option JsError;
  create_returns : N -> JsError + Attrs;
  profile_save_rejects : option JsError
}.

Module ProfileUpdate.

(** [if (v !== undefined) profile.k = v]. *)
Definition assign (k : string) (v : option JsValue) (profile : Attrs) : Attrs :=
  match v with
  | Some x => <[k := x]> profile
  | None => profile
  end.

(** The assignments of the handler, in its order. *)
Definition update_fields (body : JsValue) (profile : Attrs) : Attrs :=
  let address := Json.get body "address" in
  let emergency_contact := Json.get body "emergency_contact" in
  let profile := assign "display_name" (Json.get body "display_name") profile in
  let profile := assign "bio" (Json.get body "bio") profile in
  let profile := assign "date_of_birth" (Json.get body "date_of_birth") profile in
  let profile := assign "sex" (Json.get body "sex") profile in
  let profile := assign "gender_identity" (Json.get body "gender_identity") profile in
  let profile := assign "phone_number" (Json.get body "phone_number") profile in
  let profile :=
    if Json.to_boolean address then
      let profile := assign "address_line1" (Json.get_opt address "line1") profile in
      let profile := assign "address_line2" (Json.get_opt address "line2") profile in
      let profile := assign "city" (Json.get_opt address "city") profile in
      let profile := assign "province" (Json.get_opt address "province") profile in
      let profile := assign "postal_code" (Json.get_opt address "postal_code") profile in
      assign "country" (Json.get_opt address "country") profile
    else profile in
  if Json.to_boolean emergency_contact then
    let profile :=
      assign "emergency_contact_name" (Json.get_opt emergency_contact "name") profile in
    let profile :=
      assign "emergency_contact_relationship"
             (Json.get_opt emergency_contact "relationship") profile in
    assign "emergency_contact_phone" (Json.get_opt emergency_contact "phone") profile
  else profile.

(** The [profile] object of the response. *)
Definition profile_body (profile : Attrs) : JsValue :=
  Json.object
    [("display_name", profile !! "display_name");
     ("bio", profile !! "bio");
     ("date_of_birth", profile !! "date_of_birth");
     ("sex", profile !! "sex");
     ("gender_identity", profile !! "gender_identity");
     ("phone_number", profile !! "phone_number");
     ("address",
      Some (Json.object
              [("line1", profile !! "address_line1");
               ("line2", profile !! "address_line2");
               ("city", profile !! "city");
               ("province", profile !! "province");
               ("postal_code", profile !! "postal_code");
               ("country", profile !! "country")]));
     ("emergency_contact",
      Some (Json.object
              [("name", profile !! "emergency_contact_name");
               ("relationship", profile !! "emergency_contact_relationship");
               ("phone", profile !! "emergency_contact_phone")]))].

(** [updateProfile]: [user] is [req.user] reduced to its id ([None] when
    there is no [req.user]), [body] is [req.body] ([None] when no body was
    parsed).  The created instance is in the table from the moment
    [UserProfile.create] returns. *)
Definition updateProfile (uw : UpdateWorld) (user : option N) (body : option JsValue)
    (table : Profiles) : Reply * Profiles :=
  match user with
  | None => (reply_next (TypeError "Cannot read properties of undefined (reading 'id')"),
             table)
  | Some userId =>
      match body with
      | None | Some JNull =>
          (reply_next (TypeError "Cannot destructure property 'display_name' of 'req.body'"),
           table)
      | Some body =>
          match findOne_rejects uw with
          | Some error => (reply_next error, table)
          | None =>
              let found :=
                match table !! userId with
                | Some profile => inr (profile, table)
                | None =>
                    match create_returns uw userId with
                    | inl error => inl error
                    | inr profile => inr (profile, <[userId := profile]> table)
                    end
                end in
              match found with
              | inl error => (reply_next error, table)
              | inr (profile, table) =>
                  let profile := update_fields body profile in
                  match profile_save_rejects uw with
                  | Some error => (reply_next error, table)
                  | None =>
                      (reply 200
                         (Json.object
                            [("message", Some (JString "Profile updated successfully"));
                             ("profile", Some (profile_body profile))]),
                       <[userId := profile]> table)
                  end
              end
          end
      end
  end.

End ProfileUpdate.

(** ** Notions and fixtures for the profile handlers *)

(** The keys of the owner's view that the public view does not have. *)
Definition owner_only_keys : list string :=
  ["email"; "role"; "account_status"; "created_at"; "profile"; "guardians";
   "privacy_settings"].

(** The requester is the owner, as the handler decides it. *)
Definition is_owner (pw : ProfileWorld) (targetUserId : string) (requesterId : option N)
  : bool :=
  match requesterId with
  | Some id => loose_eq pw targetUserId id
  | None => false
  end.

(** The assignments of [updateProfile] as a table: the attribute and the
    value the body sends for it. *)
Definition assignments (body : JsValue) : list (string * option JsValue) :=
  let address := Json.get body "address" in
  let emergency_contact := Json.get body "emergency_contact" in
  [("display_name", Json.get body "display_name");
   ("bio", Json.get body "bio");
   ("date_of_birth", Json.get body "date_of_birth");
   ("sex", Json.get body "sex");
   ("gender_identity", Json.get body "gender_identity");
   ("phone_number", Json.get body "phone_number");
   ("address_line1", Json.get_opt address "line1");
   ("address_line2", Json.get_opt address "line2");
   ("city", Json.get_opt address "city");
   ("province", Json.get_opt address "province");
   ("postal_code", Json.get_opt address "postal_code");
   ("country", Json.get_opt address "country");
   ("emergency_contact_name", Json.get_opt emergency_contact "name");
   ("emergency_contact_relationship", Json.get_opt emergency_contact "relationship");
   ("emergency_contact_phone", Json.get_opt emergency_contact "phone")].

(** The attributes [updateProfile] can assign. *)
Definition updatable : list string :=
  ["display_name"; "bio"; "date_of_birth"; "sex"; "gender_identity"; "phone_number";
   "address_line1"; "address_line2"; "city"; "province"; "postal_code"; "country";
   "emergency_contact_name"; "emergency_contact_relationship";
   "emergency_contact_phone"].

(** The value the body sends for an attribute, if it sends one. *)
Fixpoint lookup_sent (k : string) (l : list (string * option JsValue)) : option JsValue :=
  match l with
  | [] => None
  | (k', v) :: l' => if String.eqb k k' then v else lookup_sent k l'
  end.

Definition sent (body : JsValue) (k : string) : option JsValue :=
  lookup_sent k (assignments body).

(** Ann's account: active, private. *)
Definition ann_account : UserMethods.instance :=
  UserMethods.mk ann "player" (Some "local") false "active" None
                 (Some (JString "2024-01-05T10:00:00.000Z")).

(** Bob's account: deactivated, signed in through Google. *)
Definition bob_account : UserMethods.instance :=
  UserMethods.mk bob "player" (Some "google") true "deactivated" None
                 (Some (JString "2024-02-01T08:30:00.000Z")).

(** Cyd's account: active, public, without a profile row. *)
Definition cyd_account : UserMethods.instance :=
  UserMethods.mk cyd "educator" None true "active" None
                 (Some (JString "2024-03-09T17:45:00.000Z")).

Definition ann_profile : JsValue :=
  JObject [("display_name", JString "Annie"); ("bio", JString "Hello");
           ("city", JString "Cebu")].

(** A database holding the three accounts; the parameter equals an id when it
    is its decimal form. *)
Definition pw0 : ProfileWorld :=
  {| findByPk_include := fun id =>
       if String.eqb id "7" then
         inr (Some {| account := ann_account; profile := Some ann_profile;
                      privacySettings := None |})
       else if String.eqb id "8" then
         inr (Some {| account := bob_account; profile := None; privacySettings := None |})
       else if String.eqb id "9" then
         inr (Some {| account := cyd_account; profile := None; privacySettings := None |})
       else inr None;
     findUserGuardians := fun _ => inr [];
     loose_eq := fun s n => String.eqb s (JS.number_to_string n) |}.

(** A database that answers the update. *)
Definition uw_ok : UpdateWorld :=
  {| findOne_rejects := None;
     create_returns := fun userId => inr {[ "user_id" := Json.of_number userId ]};
     profile_save_rejects := None |}.

(** A database that creates a profile but rejects the save. *)
Definition uw_save_fails : UpdateWorld :=
  {| findOne_rejects := None;
     create_returns := fun userId => inr {[ "user_id" := Json.of_number userId ]};
     profile_save_rejects := Some (Error "Validation error") |}.

(** A table in which user 7 has a profile. *)
Definition profiles0 : Profiles :=
  {[ 7 := {[ "user_id" := JNumber "7"; "display_name" := JString "Annie";
             "city" := JString "Cebu" ]} ]}.

(** A body that renames the user, clears the bio, sets one address line and
    tries to move the profile to another user. *)
Definition body0 : JsValue :=
  JObject [("display_name", JString "Ann L."); ("bio", JNull);
           ("address", JObject [("line1", JString "12 Mango Ave")]);
           ("user_id", JNumber "8")].

(** The last step of the handler: save and answer. *)
Definition save_and_answer (uw : UpdateWorld) (userId : N) (body : JsValue)
    (profile : Attrs) (table : Profiles) : Reply * Profiles :=
  match profile_save_rejects uw with
  | Some error => (reply_next error, table)
  | None =>
      (reply 200
         (Json.object
            [("message", Some (JString "Profile updated successfully"));
             ("profile",
              Some (ProfileUpdate.profile_body (ProfileUpdate.update_fields body profile)))]),
       <[userId := ProfileUpdate.update_fields body profile]> table)
  end.

(** The attributes of the profile of user 7 in [profiles0]. *)
Definition ann_attrs : Attrs :=
  {[ "user_id" := JNumber "7"; "display_name" := JString "Annie";
     "city" := JString "Cebu" ]}.

(** * Properties *)

(** ** The primitives on examples *)

Example encode_demo : JS.encodeURIComponent "Ann Lee/é" = "Ann%20Lee%2F%C3%A9".
Proof. reflexivity. Qed.
Example num_demo : JS.number_to_string 0 = "0" /\ JS.number_to_string 1730000000123 = "1730000000123".
Proof. split; reflexivity. Qed.
Example replace_demo :
  JS.replace "https://old.example/files/avatars/9/a.jpg" "https://old.example/files/" ""
  = "avatars/9/a.jpg" /\ JS.replace "abc" "" "x" = "xabc" /\ JS.replace "a/b/c" "/" "" = "ab/c".
Proof. repeat split; reflexivity. Qed.

(** ** Strings *)

Section StringFacts.
Implicit Types s p q r : string.

Lemma startsWith_app p s : JS.startsWith (p +:+ s) p = true.
Proof.
  induction p as [|c p IH]; simpl; [done|].
  by rewrite Ascii.eqb_refl, IH.
Qed.

Lemma startsWith_app_l s p q :
  JS.startsWith s (p +:+ q) = true -> JS.startsWith s p = true.
Proof.
  revert s. induction p as [|c p IH]; intros s; simpl; [done|].
  destruct s as [|d s]; [done|].
  intros [-> H]%andb_prop. simpl. eauto.
Qed.

Lemma drop_app p s : JS.drop (String.length p) (p +:+ s) = s.
Proof. induction p; simpl; auto. Qed.

Lemma includes_unfold s p :
  JS.includes s p =
  JS.startsWith s p ||
  match s with
  | EmptyString => false
  | String _ s' => JS.includes s' p
  end.
Proof. by destruct s. Qed.

Lemma includes_app p s : JS.includes (p +:+ s) p = true.
Proof. by rewrite includes_unfold, startsWith_app. Qed.

Lemma includes_app_l s p q :
  JS.includes s (p +:+ q) = true -> JS.includes s p = true.
Proof.
  induction s as [|c s IH]; simpl.
  - rewrite !orb_false_r. apply startsWith_app_l.
  - intros [H|H]%orb_prop.
    + by rewrite (startsWith_app_l _ _ _ H).
    + rewrite (IH H). apply orb_true_r.
Qed.

Lemma includes_startsWith s p : JS.includes s p = false -> JS.startsWith s p = false.
Proof. destruct s; simpl; intros [H _]%orb_false_elim; done. Qed.

Lemma replace_unfold s p r :
  JS.replace s p r =
  if JS.startsWith s p then r +:+ JS.drop (String.length p) s
  else match s with
       | EmptyString => EmptyString
       | String c s' => String c (JS.replace s' p r)
       end.
Proof. by destruct s. Qed.

(** Replacing the pattern a string begins with leaves the rest. *)
Lemma replace_app p s r : JS.replace (p +:+ s) p r = r +:+ s.
Proof. by rewrite replace_unfold, startsWith_app, drop_app. Qed.

(** A pattern that does not occur is not replaced. *)
Lemma replace_absent s p r : JS.includes s p = false -> JS.replace s p r = s.
Proof.
  induction s as [|c s IH]; simpl.
  - intros [-> _]%orb_false_elim. done.
  - intros [-> H]%orb_false_elim. by rewrite IH.
Qed.

Lemma truthy_Some v s : JS.truthy v = Some s <-> v = Some s /\ s <> "".
Proof.
  destruct v as [[|c v]|]; simpl; split; try done.
  - by intros [[= <-] ?].
  - by intros [= <-].
  - by intros [[= <-] _].
  - by intros [? _].
Qed.

Lemma truthy_None v : JS.truthy v = None <-> v = None \/ v = Some "".
Proof.
  destruct v as [[|c v]|]; simpl; split; auto; try done.
  by intros [?|?].
Qed.

Lemma app_length s p : String.length (s +:+ p) = (String.length s + String.length p)%nat.
Proof. induction s as [|c s IH]; simpl; [done|by rewrite IH]. Qed.

Lemma append_assoc s p q : (s +:+ p) +:+ q = s +:+ (p +:+ q).
Proof.
  induction s as [|c s IH]; [done|].
  change (String c ((s +:+ p) +:+ q) = String c (s +:+ (p +:+ q))).
  by rewrite IH.
Qed.

(** A string is not a proper extension of itself on the left. *)
Lemma app_neq_self p s : p <> "" -> p +:+ s <> s.
Proof.
  intros Hp H. apply (f_equal String.length) in H. rewrite app_length in H.
  destruct p; [done|]. simpl in H. lia.
Qed.
End StringFacts.

(** ** URL resolution *)

Section Resolution.
Variable env : Env.
Implicit Types u : Users.row.

Lemma constructUrl_join key :
  FileStorageService.constructUrl env key
  = JS.template (R2_PUBLIC_URL env) +:+ "/" +:+ key.
Proof. reflexivity. Qed.

(** Tier 1: a truthy key decides alone. *)
Lemma getAvatarUrl_tier1 u key :
  JS.truthy (Users.avatar_key u) = Some key ->
  User.getAvatarUrl env u = FileStorageService.constructUrl env key.
Proof. unfold User.getAvatarUrl. by intros ->. Qed.

(** Tier 2, exactly as the code computes it. *)
Lemma getAvatarUrl_tier2 u url :
  JS.truthy (Users.avatar_key u) = None ->
  JS.truthy (Users.avatar_url u) = Some url ->
  User.getAvatarUrl env u =
  match JS.truthy (OLD_R2_PUBLIC_URL env) with
  | Some old =>
      if JS.includes url old
      then FileStorageService.constructUrl env (JS.replace url (old +:+ "/") "")
      else url
  | None => url
  end.
Proof. unfold User.getAvatarUrl. by intros -> ->. Qed.

(** The legacy domain occurs in the URL but is nowhere followed by a slash:
    [includes] says yes, [replace] removes nothing, and the whole legacy URL
    becomes the key. *)
Lemma getAvatarUrl_domain_without_slash u url old :
  JS.truthy (Users.avatar_key u) = None ->
  JS.truthy (Users.avatar_url u) = Some url ->
  JS.truthy (OLD_R2_PUBLIC_URL env) = Some old ->
  JS.includes url old = true ->
  JS.includes url (old +:+ "/") = false ->
  User.getAvatarUrl env u = FileStorageService.constructUrl env url.
Proof.
  intros Hk Hu Ho Hinc Hslash.
  by rewrite (getAvatarUrl_tier2 u url Hk Hu), Ho, Hinc, replace_absent.
Qed.

(** Tier 3. *)
Lemma getAvatarUrl_tier3 u :
  JS.truthy (Users.avatar_key u) = None ->
  JS.truthy (Users.avatar_url u) = None ->
  User.getAvatarUrl env u =
  AvatarService.getDefaultAvatar (Some (JS.or_else (Users.name u) (Users.email u))).
Proof. unfold User.getAvatarUrl. by intros -> ->. Qed.
End Resolution.

Example resolve_ann : User.getAvatarUrl env0 ann = "https://current.example/avatars/7/a.jpg".
Proof. reflexivity. Qed.
Example resolve_bob :
  User.getAvatarUrl env0 bob
  = "https://ui-avatars.com/api/?name=bob%40example.org&background=random&size=400".
Proof. reflexivity. Qed.
Example resolve_cyd : User.getAvatarUrl env0 cyd = "https://current.example/avatars/9/a.jpg".
Proof. reflexivity. Qed.

(** A legacy URL that contains the old domain without the slash after it:
    [includes] finds the domain, [replace] finds nothing to remove, and the
    whole legacy URL is used as the key. *)
Example resolve_domain_without_slash :
  User.getAvatarUrl env0
    (Users.mk 9 "cyd@example.org" None None (Some "https://old.example/files2/a.jpg"))
  = "https://current.example/https://old.example/files2/a.jpg".
Proof. reflexivity. Qed.

(** C1, as amended: for every user whose avatar_key is non-null and not the
    empty string, [getAvatarUrl] returns the canonical URL that joins the
    public base URL with that key, whatever avatar_url (and every other
    column) holds. *)
Theorem getAvatarUrl_key_priority (env : Env) (u : Users.row) (key : string) :
  Users.avatar_key u = Some key -> key <> "" ->
  User.getAvatarUrl env u = FileStorageService.constructUrl env key
  /\ User.getAvatarUrl env u = JS.template (R2_PUBLIC_URL env) +:+ "/" +:+ key.
Proof.
  intros Hk Hne.
  assert (JS.truthy (Users.avatar_key u) = Some key) as Ht by by apply truthy_Some.
  by rewrite (getAvatarUrl_tier1 env u key Ht).
Qed.

Lemma getAvatarUrl_key_priority_witness :
  User.getAvatarUrl env0 ann = FileStorageService.constructUrl env0 "avatars/7/a.jpg"
  /\ User.getAvatarUrl env0 ann
     = JS.template (R2_PUBLIC_URL env0) +:+ "/" +:+ "avatars/7/a.jpg".
Proof.
  apply (getAvatarUrl_key_priority env0 ann "avatars/7/a.jpg"); [reflexivity | discriminate].
Defined.

(** C1, as stated, fails: an avatar_key that is the empty string is non-null,
    yet resolution passes it over and returns the legacy URL, not the base
    joined with the key. *)
Lemma getAvatarUrl_empty_key_skipped :
  let u := Users.mk 7 "ann@example.org" (Some "Ann Lee") (Some "")
                    (Some "https://cdn.example/ann.png") in
  Users.avatar_key u <> None
  /\ User.getAvatarUrl env0 u = "https://cdn.example/ann.png"
  /\ User.getAvatarUrl env0 u <> FileStorageService.constructUrl env0 "".
Proof. repeat split; discriminate. Qed.

(** C5, as amended: for every user with avatar_key null and an avatar_url that
    is non-null and not the empty string: if a non-empty legacy domain is
    configured and avatar_url is that domain, a slash and a remainder,
    resolution returns the canonical URL built from the remainder; if no
    legacy domain is configured (unset or empty) or avatar_url does not contain
    it, resolution returns avatar_url verbatim.  Nothing is persisted:
    resolution is a function of the row and the configuration. *)
Theorem getAvatarUrl_legacy (env : Env) (u : Users.row) (url : string) :
  Users.avatar_key u = None -> Users.avatar_url u = Some url -> url <> "" ->
  (forall old rest,
      OLD_R2_PUBLIC_URL env = Some old -> old <> "" ->
      url = old +:+ "/" +:+ rest ->
      User.getAvatarUrl env u = FileStorageService.constructUrl env rest)
  /\ ((OLD_R2_PUBLIC_URL env = None \/ OLD_R2_PUBLIC_URL env = Some ""
       \/ exists old, OLD_R2_PUBLIC_URL env = Some old /\ JS.includes url old = false) ->
      User.getAvatarUrl env u = url).
Proof.
  intros Hk Hu Hne.
  assert (JS.truthy (Users.avatar_key u) = None) as Hk' by (apply truthy_None; auto).
  assert (JS.truthy (Users.avatar_url u) = Some url) as Hu' by by apply truthy_Some.
  rewrite (getAvatarUrl_tier2 env u url Hk' Hu'). split.
  - intros old rest Ho Hone ->.
    assert (JS.truthy (OLD_R2_PUBLIC_URL env) = Some old) as -> by by apply truthy_Some.
    rewrite includes_app.
    by rewrite <- append_assoc, replace_app.
  - intros [Ho|[Ho|(old & Ho & Hinc)]].
    + by rewrite Ho.
    + by rewrite Ho.
    + rewrite Ho. destruct old; simpl; [done|]. by rewrite Hinc.
Qed.

Lemma getAvatarUrl_legacy_witness :
  (forall old rest,
      OLD_R2_PUBLIC_URL env0 = Some old -> old <> "" ->
      "https://old.example/files/avatars/9/a.jpg" = old +:+ "/" +:+ rest ->
      User.getAvatarUrl env0 cyd = FileStorageService.constructUrl env0 rest)
  /\ ((OLD_R2_PUBLIC_URL env0 = None \/ OLD_R2_PUBLIC_URL env0 = Some ""
       \/ exists old, OLD_R2_PUBLIC_URL env0 = Some old
                      /\ JS.includes "https://old.example/files/avatars/9/a.jpg" old = false) ->
      User.getAvatarUrl env0 cyd = "https://old.example/files/avatars/9/a.jpg").
Proof.
  apply (getAvatarUrl_legacy env0 cyd "https://old.example/files/avatars/9/a.jpg");
    [reflexivity | reflexivity | discriminate].
Defined.

(** C5, as stated, fails: an avatar_url that is the empty string is non-null
    and does not match the legacy domain, yet resolution does not return it
    verbatim; it falls through to the default avatar. *)
Lemma getAvatarUrl_empty_legacy_url_skipped :
  let u := Users.mk 9 "cyd@example.org" (Some "Cyd") None (Some "") in
  Users.avatar_key u = None
  /\ Users.avatar_url u <> None
  /\ JS.includes "" "https://old.example/files" = false
  /\ User.getAvatarUrl env0 u
     = "https://ui-avatars.com/api/?name=Cyd&background=random&size=400"
  /\ User.getAvatarUrl env0 u <> "".
Proof. repeat split; discriminate. Qed.

(** C8: for every user with avatar_key null and avatar_url null, resolution
    returns the default-avatar URL carrying the URL-encoded display name, or
    the URL-encoded email when there is no display name (null or empty).
    [getAvatarUrl] is a total function: it has no failing outcome. *)
Theorem getAvatarUrl_default (env : Env) (u : Users.row) :
  Users.avatar_key u = None -> Users.avatar_url u = None ->
  exists shown,
    User.getAvatarUrl env u
    = "https://ui-avatars.com/api/?name=" +:+ JS.encodeURIComponent shown +:+
      "&background=random&size=400"
    /\ (forall n, Users.name u = Some n -> n <> "" -> shown = n)
    /\ (Users.name u = None \/ Users.name u = Some "" -> shown = Users.email u).
Proof.
  intros Hk Hu. exists (JS.or_else (Users.name u) (Users.email u)).
  rewrite getAvatarUrl_tier3 by (apply truthy_None; auto).
  split; [reflexivity|]. unfold JS.or_else. split.
  - intros n Hn Hne. by rewrite (proj2 (truthy_Some _ _) (conj Hn Hne)).
  - intros H. by rewrite (proj2 (truthy_None _) H).
Qed.

Lemma getAvatarUrl_default_witness :
  exists shown,
    User.getAvatarUrl env0 bob
    = "https://ui-avatars.com/api/?name=" +:+ JS.encodeURIComponent shown +:+
      "&background=random&size=400"
    /\ (forall n, Users.name bob = Some n -> n <> "" -> shown = n)
    /\ (Users.name bob = None \/ Users.name bob = Some "" -> shown = Users.email bob).
Proof. apply (getAvatarUrl_default env0 bob); reflexivity. Defined.

(** ** The upload pipeline *)

Section Upload.
Variables (env : Env) (w : World).

(** Every run of [uploadAvatar], by cases on what the outside answers. *)
Lemma uploadAvatar_run buf userId s :
  AvatarService.uploadAvatar env w buf userId s =
  match sharp w buf with
  | inl _ => (Throw (Error "Failed to upload avatar"), s)
  | inr img =>
      match respond w (store_log s) (put_command env w img userId) with
      | None => (Return (JS.template (R2_PUBLIC_URL env) +:+ "/" +:+ generated_key w userId),
                 log_request s (put_command env w img userId))
      | Some _ => (Throw (Error "Failed to upload avatar"),
                   log_request s (put_command env w img userId))
      end
  end.
Proof.
  unfold AvatarService.uploadAvatar, try_catch, bind, request, of_sum, throw, ret.
  destruct (sharp w buf) as [e|img]; [reflexivity|].
  fold (generated_key w userId). fold (put_command env w img userId).
  by destruct (respond w (store_log s) (put_command env w img userId)).
Qed.

(** The pipeline never touches the user table or the file ledger. *)
Lemma uploadAvatar_no_db_write buf userId s :
  users (AvatarService.uploadAvatar env w buf userId s).2 = users s
  /\ files (AvatarService.uploadAvatar env w buf userId s).2 = files s.
Proof.
  rewrite uploadAvatar_run.
  destruct (sharp w buf); [done|]. by destruct (respond _ _ _).
Qed.

(** Whatever goes wrong, the caller sees one and the same error. *)
Lemma uploadAvatar_throws_generic buf userId s e :
  (AvatarService.uploadAvatar env w buf userId s).1 = Throw e ->
  e = Error "Failed to upload avatar".
Proof.
  rewrite uploadAvatar_run.
  destruct (sharp w buf); [by intros [= <-]|].
  destruct (respond _ _ _); simpl; [by intros [= <-]|done].
Qed.

(** The public URL is never the bare key. *)
Lemma public_url_not_key userId :
  JS.template (R2_PUBLIC_URL env) +:+ "/" +:+ generated_key w userId <> generated_key w userId.
Proof.
  rewrite <- append_assoc. apply app_neq_self.
  intros H. apply (f_equal String.length) in H. rewrite app_length in H.
  simpl in H. lia.
Qed.
End Upload.

(** C3, as amended: for every successful run of the upload pipeline, the value
    returned to the caller is the public URL, that is the public base URL, a
    slash and the generated user-scoped key; the run issued exactly one put,
    under that key, and wrote nothing to the user table. *)
Theorem uploadAvatar_returns_public_url
    (env : Env) (w : World) (buf : Buffer) (userId : N) (s s' : Sys) (v : string) :
  AvatarService.uploadAvatar env w buf userId s = (Return v, s') ->
  v = JS.template (R2_PUBLIC_URL env) +:+ "/" +:+ generated_key w userId
  /\ (exists img, sharp w buf = inr img
                  /\ store_log s' = store_log s ++ [put_command env w img userId])
  /\ users s' = users s
  /\ files s' = files s.
Proof.
  rewrite uploadAvatar_run.
  destruct (sharp w buf) as [e|img]; [done|].
  destruct (respond _ _ _); [done|].
  intros [= <- <-]. split; [done|]. split; [|done]. by exists img.
Qed.

Lemma uploadAvatar_returns_public_url_witness :
  "https://current.example/avatars/7/1730000000123-00112233445566778899aabbccddeeff.jpg"
  = JS.template (R2_PUBLIC_URL env0) +:+ "/" +:+ generated_key w_ok 7
  /\ (exists img,
         sharp w_ok [] = inr img
         /\ store_log (log_request sys0 (put_command env0 w_ok jpeg_soi 7))
            = store_log sys0 ++ [put_command env0 w_ok img 7])
  /\ users (log_request sys0 (put_command env0 w_ok jpeg_soi 7))
     = users sys0
  /\ files (log_request sys0 (put_command env0 w_ok jpeg_soi 7))
     = files sys0.
Proof.
  apply (uploadAvatar_returns_public_url env0 w_ok [] 7 sys0). reflexivity.
Defined.

(** C3, as stated, fails: a successful run returns a full URL, which is not the
    key it stored the object under. *)
Lemma uploadAvatar_result_is_not_the_key :
  exists s',
    AvatarService.uploadAvatar env0 w_ok [] 7 sys0
    = (Return "https://current.example/avatars/7/1730000000123-00112233445566778899aabbccddeeff.jpg", s')
    /\ store_log s'
       = [PutObject (Some "protected-avatars")
            "avatars/7/1730000000123-00112233445566778899aabbccddeeff.jpg"
            jpeg_soi "image/jpeg" "public, max-age=31536000"
            [("userId", "7"); ("uploadedAt", "2024-10-27T03:33:20.123Z")]]
    /\ "https://current.example/avatars/7/1730000000123-00112233445566778899aabbccddeeff.jpg"
       <> "avatars/7/1730000000123-00112233445566778899aabbccddeeff.jpg".
Proof. eexists. split; [reflexivity|]. split; [reflexivity | discriminate]. Qed.

(** *** Size validation *)

Lemma big_file_size : size big_file = N.of_nat (length (buffer big_file)).
Proof.
  unfold big_file, size, buffer. by rewrite length_replicate, N2Nat.id.
Qed.

Lemma validateImage_errors file :
  errors (AvatarService.validateImage file) =
  (if 5 * 1024 * 1024 <? size file then ["File size exceeds 5MB limit"] else [])
  ++ (if bool_decide (mimetype file ∈ ["image/jpeg"; "image/png"; "image/jpg"])
      then [] else ["Invalid file type. Only JPEG and PNG are allowed"]).
Proof.
  unfold AvatarService.validateImage. simpl errors.
  by destruct (_ <? _), (bool_decide _).
Qed.

(** C6, as amended: for every file whose declared size exceeds 5 MiB,
    [validateImage] reports it invalid, with the size error first among its
    errors; [validateImage] is a function of the file alone, so it issues no
    request to the object store.  ([uploadAvatar] does not call it and checks no
    size itself.) *)
Theorem validateImage_rejects_large (file : MulterFile) :
  5 * 1024 * 1024 < size file ->
  valid (AvatarService.validateImage file) = false
  /\ errors (AvatarService.validateImage file) !! 0%nat = Some "File size exceeds 5MB limit".
Proof.
  intros Hsz%N.ltb_lt.
  assert (valid (AvatarService.validateImage file)
          = bool_decide (length (errors (AvatarService.validateImage file)) = 0%nat)) as ->
    by reflexivity.
  rewrite validateImage_errors, Hsz. split; [|done].
  by apply bool_decide_eq_false.
Qed.

Lemma validateImage_rejects_large_witness :
  valid (AvatarService.validateImage big_file) = false
  /\ errors (AvatarService.validateImage big_file) !! 0%nat = Some "File size exceeds 5MB limit".
Proof. apply (validateImage_rejects_large big_file). reflexivity. Defined.

(** A size within the limit and an allowed type pass validation. *)
Lemma validateImage_accepts file :
  size file <= 5 * 1024 * 1024 ->
  mimetype file ∈ ["image/jpeg"; "image/png"; "image/jpg"] ->
  AvatarService.validateImage file = {| valid := true; errors := [] |}.
Proof.
  intros Hsz%N.ltb_ge Hty. unfold AvatarService.validateImage.
  by rewrite Hsz, (bool_decide_eq_true_2 _ Hty).
Qed.

(** C6, as stated, fails: a six-mebibyte payload that the image library can
    decode goes through the pipeline, which returns normally and issues a
    put. *)
Lemma uploadAvatar_stores_large_payload :
  5 * 1024 * 1024 < N.of_nat (length (buffer big_file))
  /\ (AvatarService.uploadAvatar env0 w_ok (buffer big_file) 7 sys0).1
     = Return "https://current.example/avatars/7/1730000000123-00112233445566778899aabbccddeeff.jpg"
  /\ store_log (AvatarService.uploadAvatar env0 w_ok (buffer big_file) 7 sys0).2
     = [put_command env0 w_ok jpeg_soi 7]
  /\ is_put (put_command env0 w_ok jpeg_soi 7) = true.
Proof.
  split; [by rewrite <- big_file_size|].
  rewrite uploadAvatar_run. repeat split.
Qed.

(** *** Failure outcomes *)

(** C7, as amended: whichever step fails, the transform that cannot decode the
    payload or the put that the object store rejects, the pipeline surfaces the
    same outcome to the caller, the error with message "Failed to upload
    avatar"; the outcome does not tell which step failed. *)
Theorem uploadAvatar_single_failure
    (env : Env) (w : World) (buf : Buffer) (userId : N) (s : Sys) :
  (exists e, sharp w buf = inl e)
  \/ (exists img e, sharp w buf = inr img
                    /\ respond w (store_log s) (put_command env w img userId) = Some e) ->
  (AvatarService.uploadAvatar env w buf userId s).1 = Throw (Error "Failed to upload avatar").
Proof.
  rewrite uploadAvatar_run. intros [[e ->]|(img & e & -> & ->)]; reflexivity.
Qed.

Lemma uploadAvatar_single_failure_witness :
  (AvatarService.uploadAvatar env0 w_store_down [] 7 sys0).1
  = Throw (Error "Failed to upload avatar").
Proof.
  apply (uploadAvatar_single_failure env0 w_store_down [] 7 sys0).
  right. exists jpeg_soi, (Error "connect ETIMEDOUT"). split; reflexivity.
Defined.

(** C7, as stated, fails: a payload that cannot be decoded and a put that the
    store rejects give the caller the very same outcome. *)
Lemma uploadAvatar_failures_indistinguishable :
  sharp w_undecodable [] = inl (Error "Input buffer contains unsupported image format")
  /\ sharp w_store_down [] = inr jpeg_soi
  /\ respond w_store_down [] (put_command env0 w_store_down jpeg_soi 7)
     = Some (Error "connect ETIMEDOUT")
  /\ (AvatarService.uploadAvatar env0 w_undecodable [] 7 sys0).1
     = Throw (Error "Failed to upload avatar")
  /\ (AvatarService.uploadAvatar env0 w_store_down [] 7 sys0).1
     = Throw (Error "Failed to upload avatar").
Proof. repeat split. Qed.

(** ** Deleting an avatar by URL *)

Section DeleteAvatar.
Variables (env : Env) (w : World).

(** Every run of [deleteAvatar], by cases. *)
Lemma deleteAvatar_run avatarUrl s :
  AvatarService.deleteAvatar env w avatarUrl s =
  match JS.truthy avatarUrl with
  | None => (Return false, s)
  | Some url =>
      if JS.includes url (JS.template (R2_PUBLIC_URL env)) then
        match respond w (store_log s) (delete_command env url) with
        | None => (Return true, log_request s (delete_command env url))
        | Some _ => (Return false, log_request s (delete_command env url))
        end
      else (Return false, s)
  end.
Proof.
  unfold AvatarService.deleteAvatar, try_catch.
  destruct (JS.truthy avatarUrl) as [url|]; [|reflexivity].
  destruct (JS.includes url _); [|reflexivity].
  cbv zeta. fold (delete_command env url). unfold bind, request, ret.
  cbv beta iota delta [negb].
  by destruct (respond w (store_log s) (delete_command env url)).
Qed.
End DeleteAvatar.

(** C10: [AvatarService.deleteAvatar] returns a boolean on every input and in
    every state and never throws.  When the URL is null or empty, or does not
    contain the public base URL, the result is false and no request was
    issued; the result is true only when a delete request was issued and the
    store accepted it; when a delete request was issued and the store rejected
    it, the result is false. *)
Theorem deleteAvatar_total
    (env : Env) (w : World) (avatarUrl : option string) (s : Sys) :
  exists (b : bool) (s' : Sys),
    AvatarService.deleteAvatar env w avatarUrl s = (Return b, s')
    /\ users s' = users s /\ files s' = files s
    /\ ((avatarUrl = None \/ avatarUrl = Some ""
         \/ exists url, avatarUrl = Some url
                        /\ JS.includes url (JS.template (R2_PUBLIC_URL env)) = false) ->
        b = false /\ s' = s)
    /\ (b = true ->
        exists url, avatarUrl = Some url
                    /\ store_log s' = store_log s ++ [delete_command env url]
                    /\ respond w (store_log s) (delete_command env url) = None)
    /\ (forall r e, store_log s' = store_log s ++ [r] ->
                    respond w (store_log s) r = Some e -> b = false).
Proof.
  rewrite deleteAvatar_run.
  destruct (JS.truthy avatarUrl) as [url|] eqn:Ht.
  - apply truthy_Some in Ht as [-> Hne].
    destruct (JS.includes url _) eqn:Hinc.
    + assert (Some url = None \/ Some url = Some ""
              \/ (exists url0, Some url = Some url0
                   /\ JS.includes url0 (JS.template (R2_PUBLIC_URL env)) = false)
              -> False) as Hissued
        by (intros [?|[[= ?]|(url0 & [= <-] & ?)]]; congruence).
      destruct (respond w (store_log s) (delete_command env url)) as [e|] eqn:Hr.
      * exists false, (log_request s (delete_command env url)).
        split_and!; done.
      * exists true, (log_request s (delete_command env url)).
        split_and!; try done.
        -- by exists url.
        -- simpl. intros r e [= <-]%app_inv_head. congruence.
    + exists false, s. split_and!; done.
  - exists false, s. split_and!; done.
Qed.

Example deleteAvatar_foreign_url :
  AvatarService.deleteAvatar env0 w_ok (Some "https://cdn.example/ann.png") sys0
  = (Return false, sys0).
Proof. reflexivity. Qed.
Example deleteAvatar_own_url :
  AvatarService.deleteAvatar env0 w_ok (Some "https://current.example/avatars/7/a.jpg") sys0
  = (Return true, log_request sys0 (DeleteObject (Some "protected-avatars") "avatars/7/a.jpg")).
Proof. reflexivity. Qed.
Example deleteAvatar_store_down :
  AvatarService.deleteAvatar env0 w_store_down (Some "https://current.example/avatars/7/a.jpg") sys0
  = (Return false, log_request sys0 (DeleteObject (Some "protected-avatars") "avatars/7/a.jpg")).
Proof. reflexivity. Qed.

(** ** The pre-destroy cleanup *)

Lemma log_requests_nil s : log_requests s [] = s.
Proof. destruct s. unfold log_requests. simpl. by rewrite app_nil_r. Qed.

Lemma log_requests_cons s r rs :
  log_requests (log_request s r) rs = log_requests s (r :: rs).
Proof. unfold log_requests, log_request. simpl. by rewrite <- app_assoc. Qed.

Lemma log_requests_app s rs rs' :
  log_requests (log_requests s rs) rs' = log_requests s (rs ++ rs').
Proof. unfold log_requests. simpl. by rewrite <- app_assoc. Qed.

Section Cleanup.
Variable w : World.

(** A delete whose failure is caught: the request is issued, nothing is
    thrown, whatever the store answers. *)
Lemma deleteFile_settled key s :
  try_catch (FileStorageService.deleteFile w key) (fun _ => ret tt) s
  = (Return tt, log_request s (DeleteFile key)).
Proof.
  unfold try_catch, FileStorageService.deleteFile, request, ret.
  by destruct (respond w (store_log s) (DeleteFile key)).
Qed.

(** All the per-file deletes are issued, in ledger order, and joining them
    never rejects. *)
Lemma Promise_all_settled (userFiles : list Files.row) s :
  Promise_all
    (map (fun file =>
            try_catch (FileStorageService.deleteFile w (Files.file_key file))
                      (fun _ => ret tt))
         userFiles) s
  = (Return (map (fun _ => tt) userFiles),
     log_requests s (map (fun file => DeleteFile (Files.file_key file)) userFiles)).
Proof.
  revert s. induction userFiles as [|file userFiles IH]; intros s.
  - simpl. by rewrite log_requests_nil.
  - cbn [map Promise_all]. rewrite deleteFile_settled, IH.
    by rewrite log_requests_cons.
Qed.

(** Every run of the hook: it returns normally, and these are the requests
    it issued. *)
Lemma beforeDestroy_run exports user s :
  User.beforeDestroy exports w user s
  = (Return tt, log_requests s (avatar_requests user ++ file_requests w exports user s)).
Proof.
  unfold User.beforeDestroy, avatar_requests, file_requests.
  unfold bind at 1.
  assert (forall s1 : Sys, files s1 = files s ->
    try_catch
      (let! userFiles :=
         if bool_decide ("File" ∈ exports) then File.findAll w (Users.id user)
         else throw (TypeError "Cannot read properties of undefined (reading 'findAll')") in
       if (0 <? length userFiles)%nat then
         let deletePromises :=
           map (fun file =>
                  try_catch (FileStorageService.deleteFile w (Files.file_key file))
                            (fun err => ret tt))
               userFiles in
         do! Promise_all deletePromises in
         ret tt
       else ret tt)
      (fun error => ret tt) s1
    = (Return tt,
       log_requests s1
         (if bool_decide ("File" ∈ exports) then
            match findAll_rejects w with
            | None => map (fun file => DeleteFile (Files.file_key file))
                          (filter (fun f => Files.uploaded_by f = Users.id user) (files s))
            | Some _ => []
            end
          else []))) as Hfiles.
  { intros s1 Hs1. unfold try_catch, bind.
    destruct (bool_decide ("File" ∈ exports));
      [|by unfold throw, ret; rewrite log_requests_nil].
    unfold File.findAll, bind, rejects.
    destruct (findAll_rejects w) as [e|];
      [by unfold throw, ret; rewrite log_requests_nil|].
    unfold ret at 1. rewrite Hs1.
    destruct (filter _ (files s)) as [|f fs] eqn:Hf;
      [by unfold ret; rewrite log_requests_nil|].
    cbn [length Nat.ltb Nat.leb]. cbv zeta.
    by rewrite Promise_all_settled. }
  destruct (JS.truthy (Users.avatar_key user)) as [key|].
  - rewrite deleteFile_settled, Hfiles by done. by rewrite log_requests_cons.
  - unfold ret at 1. by rewrite Hfiles.
Qed.

(** The hook never raises, whatever the registry exports and whatever the
    object store and the database answer, and it changes neither the user
    table nor the ledger. *)
Lemma beforeDestroy_never_throws exports user s :
  exists s', User.beforeDestroy exports w user s = (Return tt, s')
             /\ users s' = users s /\ files s' = files s.
Proof. rewrite beforeDestroy_run. by eexists. Qed.

(** With a registry that exports the [File] model and a ledger query that
    succeeds, the hook issues one delete for a non-empty avatar key and one
    per owned file, each whatever the store answered to the others. *)
Lemma beforeDestroy_requests_with_File exports user s :
  "File" ∈ exports -> findAll_rejects w = None ->
  store_log (User.beforeDestroy exports w user s).2
  = store_log s
    ++ avatar_requests user
    ++ map (fun file => DeleteFile (Files.file_key file))
           (filter (fun f => Files.uploaded_by f = Users.id user) (files s)).
Proof.
  intros Hin Hq. rewrite beforeDestroy_run. unfold file_requests.
  by rewrite (bool_decide_eq_true_2 _ Hin), Hq.
Qed.
End Cleanup.

(** What the hook would request for the spec's example (three owned files and
    an avatar, a store that rejects everything) if the registry exported the
    [File] model. *)
Example beforeDestroy_with_File_exported :
  User.beforeDestroy ("File" :: index.exports) w_store_down ann sys0
  = (Return tt,
     log_requests sys0
       [DeleteFile "avatars/7/a.jpg"; DeleteFile "uploads/7/report.pdf";
        DeleteFile "uploads/7/photo.png"; DeleteFile "uploads/7/cv.pdf"]).
Proof. by rewrite beforeDestroy_run. Qed.

(** The same with a store that rejects the second and the fourth request:
    all four are issued all the same, and the hook returns normally. *)
Example beforeDestroy_two_of_four_fail :
  respond w_flaky [DeleteFile "avatars/7/a.jpg"] (DeleteFile "uploads/7/report.pdf")
  = Some (Error "503 Slow Down")
  /\ User.beforeDestroy ("File" :: index.exports) w_flaky ann sys0
     = (Return tt,
        log_requests sys0
          [DeleteFile "avatars/7/a.jpg"; DeleteFile "uploads/7/report.pdf";
           DeleteFile "uploads/7/photo.png"; DeleteFile "uploads/7/cv.pdf"]).
Proof. split; reflexivity. Qed.

(** C4, on the code as it is: [model/index.js] does not export [File], so in
    the hook [File] is [undefined], [File.findAll] throws inside the guarded
    block, and no delete is requested for any owned file.  For a user with an
    avatar and three owned files the hook returns normally after a single
    delete request, the avatar's. *)
Theorem beforeDestroy_skips_owned_files :
  ("File" ∈ index.exports -> False)
  /\ length (filter (fun f => Files.uploaded_by f = Users.id ann) (files sys0)) = 3%nat
  /\ User.beforeDestroy index.exports w_ok ann sys0
     = (Return tt, log_requests sys0 [DeleteFile "avatars/7/a.jpg"]).
Proof.
  split; [|split].
  - intros H. apply (bool_decide_eq_true_2 _) in H. discriminate H.
  - reflexivity.
  - by rewrite beforeDestroy_run.
Qed.

(** ** The profile controller's avatar handlers *)

Section Handlers.
Variables (env : Env) (w : World).
Hypothesis findByPk_ok : findByPk_rejects w = None.
Hypothesis save_ok : save_rejects w = None.

(** Removing the avatar of an existing user, when the database answers. *)
Lemma deleteAvatar_handler_run req s user :
  users s !! req_user_id req = Some user ->
  ProfileController.deleteAvatar env w req s
  = (json 200 "Avatar removed successfully"
       (Some (User.getAvatarUrl env (ProfileController.set_avatar_url user None))),
     write_row s user None).
Proof.
  intros Hu. unfold ProfileController.deleteAvatar, handle, bind, User.findByPk, User.save.
  rewrite findByPk_ok, save_ok. simpl. by rewrite Hu.
Qed.

(** Uploading for an existing user, when the database answers. *)
Lemma uploadAvatar_handler_run req s user file :
  req_file req = Some file ->
  users s !! req_user_id req = Some user ->
  ProfileController.uploadAvatar w req s
  = (json 200 "Avatar uploaded successfully" (path file),
     write_row s user (ProfileController.saved_avatar_url user (path file))).
Proof.
  intros Hf Hu. unfold ProfileController.uploadAvatar, handle. rewrite Hf.
  unfold bind, User.findByPk, User.save.
  rewrite findByPk_ok, save_ok. simpl. by rewrite Hu.
Qed.

(** Neither handler assigns avatar_key or sends anything to the object
    store. *)
Lemma write_row_keeps_key s user v row :
  users (write_row s user v) !! Users.id user = Some row ->
  Users.avatar_key row = Users.avatar_key user /\ Users.avatar_url row = v
  /\ store_log (write_row s user v) = store_log s.
Proof.
  unfold write_row. simpl. rewrite lookup_insert_eq. by intros [= <-].
Qed.
End Handlers.

(** C2, on the code as it is: for a user with an avatar key, the removal
    handler leaves avatar_key in place (it assigns null to avatar_url), sends no
    delete to the object store, and answers with the canonical URL of the key
    that is still there, not with the default avatar. *)
Theorem deleteAvatar_handler_keeps_key :
  exists s',
    ProfileController.deleteAvatar env0 w_ok req_ann sys0
    = (json 200 "Avatar removed successfully"
         (Some (FileStorageService.constructUrl env0 "avatars/7/a.jpg")), s')
    /\ users s' !! 7
       = Some (Users.mk 7 "ann@example.org" (Some "Ann Lee") (Some "avatars/7/a.jpg") None)
    /\ store_log s' = store_log sys0
    /\ FileStorageService.constructUrl env0 "avatars/7/a.jpg"
       = "https://current.example/avatars/7/a.jpg"
    /\ FileStorageService.getDefaultAvatar (Some "Ann Lee")
       = "https://ui-avatars.com/api/?name=Ann%20Lee&background=random&size=400".
Proof.
  eexists. split_and!.
  - by apply (deleteAvatar_handler_run env0 w_ok eq_refl eq_refl req_ann sys0 ann).
  - unfold write_row. simpl. by rewrite lookup_insert_eq.
  - reflexivity.
  - reflexivity.
  - reflexivity.
Qed.

(** C9, as stated, fails: the explicit avatar removal assigns the legacy
    column.  For a user whose avatar_url holds a legacy URL, the removal
    handler stores null in it. *)
Lemma deleteAvatar_handler_writes_avatar_url :
  Users.avatar_url ann = Some "https://cdn.example/ann.png"
  /\ exists row,
       users (ProfileController.deleteAvatar env0 w_ok req_ann sys0).2 !! 7 = Some row
       /\ Users.avatar_url row = None.
Proof.
  split; [reflexivity|].
  rewrite (deleteAvatar_handler_run env0 w_ok eq_refl eq_refl req_ann sys0 ann) by done.
  unfold write_row. simpl. rewrite lookup_insert_eq. by eexists.
Qed.

(** The operations of the avatar core proper leave the user table as it
    is: resolution is a function, and the pipeline, the delete by URL and the
    cleanup hook return the table they were given. *)
Lemma core_operations_keep_users env w s :
  (forall buf userId, users (AvatarService.uploadAvatar env w buf userId s).2 = users s)
  /\ (forall avatarUrl, users (AvatarService.deleteAvatar env w avatarUrl s).2 = users s)
  /\ (forall exports user, users (User.beforeDestroy exports w user s).2 = users s).
Proof.
  split; [|split].
  - intros. apply uploadAvatar_no_db_write.
  - intros. rewrite deleteAvatar_run.
    destruct (JS.truthy avatarUrl); [|done].
    destruct (JS.includes _ _); [|done]. by destruct (respond _ _ _).
  - intros. by rewrite beforeDestroy_run.
Qed.

(** C9, as amended: the avatar upload pipeline, the delete by URL and the
    lifecycle cleanup never write avatar_url (they leave the user table as it
    is), and URL resolution is a function that writes nothing.  The explicit
    avatar removal does write it: when the user is found and the save goes
    through, it stores null in avatar_url.  The upload handler of the
    controller stores the path of the uploaded file in it when the file has
    one; a file without a path (the route's in-memory storage) leaves the
    column as it was.  Neither handler writes anything else of the row. *)
Theorem avatar_url_writers (env : Env) (w : World) (s : Sys) :
  (forall buf userId, users (AvatarService.uploadAvatar env w buf userId s).2 = users s)
  /\ (forall avatarUrl, users (AvatarService.deleteAvatar env w avatarUrl s).2 = users s)
  /\ (forall exports user, users (User.beforeDestroy exports w user s).2 = users s)
  /\ (forall req,
        users (ProfileController.deleteAvatar env w req s).2
        = match findByPk_rejects w, users s !! req_user_id req, save_rejects w with
          | None, Some user, None =>
              <[Users.id user := ProfileController.set_avatar_url user None]> (users s)
          | _, _, _ => users s
          end)
  /\ (forall req,
        users (ProfileController.uploadAvatar w req s).2
        = match req_file req, findByPk_rejects w, users s !! req_user_id req,
                save_rejects w with
          | Some file, None, Some user, None =>
              <[Users.id user :=
                  ProfileController.set_avatar_url user
                    (match path file with
                     | Some url => Some url
                     | None => Users.avatar_url user
                     end)]> (users s)
          | _, _, _, _ => users s
          end).
Proof.
  destruct (core_operations_keep_users env w s) as (Hup & Hdel & Hhook).
  split_and!; try done.
  - intros req.
    unfold ProfileController.deleteAvatar, handle, bind, User.findByPk, User.save, rejects.
    destruct (findByPk_rejects w); [reflexivity|]. simpl.
    destruct (users s !! req_user_id req); [|reflexivity].
    by destruct (save_rejects w).
  - intros req. unfold ProfileController.uploadAvatar, handle.
    destruct (req_file req) as [file|]; [|reflexivity].
    unfold bind, User.findByPk, User.save, rejects.
    destruct (findByPk_rejects w); [reflexivity|]. simpl.
    destruct (users s !! req_user_id req); [|reflexivity].
    by destruct (save_rejects w).
Qed.

(** * Further properties of the code *)

(** ** More on strings and numbers *)

Section MoreStringFacts.
Implicit Types s p q r : string.

Lemma startsWith_iff s p : JS.startsWith s p = true <-> exists r, s = p +:+ r.
Proof.
  split.
  - revert s. induction p as [|c p IH]; intros s; simpl; [by exists s|].
    destruct s as [|d s]; [done|].
    intros [->%Ascii.eqb_eq [r ->]%IH]%andb_prop. by exists r.
  - intros [r ->]. apply startsWith_app.
Qed.

Lemma append_inv_head p s r : p +:+ s = p +:+ r -> s = r.
Proof. induction p as [|c p IH]; simpl; [done|]. intros [= H]. auto. Qed.

Lemma append_inv_tail s r t : s +:+ t = r +:+ t -> s = r.
Proof.
  revert r. induction s as [|c s IH]; intros [|d r]; [done| | |].
  - intros H. apply (f_equal String.length) in H.
    rewrite !app_length in H. simpl in H. lia.
  - intros H. apply (f_equal String.length) in H.
    rewrite !app_length in H. simpl in H. lia.
  - change (String c (s +:+ t) = String d (r +:+ t) -> String c s = String d r).
    intros [= -> H]. f_equal. auto.
Qed.

Lemma append_nonempty p c s : p +:+ String c s <> "".
Proof. by destruct p. Qed.

Lemma chars_app s p : chars (s +:+ p) = chars s ++ chars p.
Proof. induction s as [|c s IH]; simpl; [done|by rewrite IH]. Qed.

(** Two strings that agree up to their first non-digit are cut at the same
    place. *)
Lemma digits_split a b c d s r :
  Forall (fun x => is_digit x = true) (chars a) ->
  Forall (fun x => is_digit x = true) (chars b) ->
  is_digit c = false -> is_digit d = false ->
  a +:+ String c s = b +:+ String d r ->
  a = b /\ c = d /\ s = r.
Proof.
  intros Ha. revert b. induction a as [|x a IH]; intros [|y b] Hb Hc Hd; simpl.
  - by intros [= -> ->].
  - intros [= -> _]. apply Forall_cons in Hb as [Hy _]. congruence.
  - intros [= -> _]. apply Forall_cons in Ha as [Hx _]. congruence.
  - intros [= -> H]. simpl in Ha, Hb.
    apply Forall_cons in Ha as [_ Ha]. apply Forall_cons in Hb as [_ Hb].
    destruct (IH Ha b Hb Hc Hd H) as (-> & -> & ->). done.
Qed.

Lemma string_of_uint_digits d :
  Forall (fun x => is_digit x = true) (chars (NilEmpty.string_of_uint d)).
Proof. induction d; simpl; constructor; done. Qed.

Lemma number_to_string_digits n :
  Forall (fun x => is_digit x = true) (chars (JS.number_to_string n)).
Proof.
  unfold JS.number_to_string, NilZero.string_of_uint.
  destruct (N.to_uint n); try apply string_of_uint_digits.
  by repeat constructor.
Qed.

Lemma to_uint_nonnil n : N.to_uint n <> Decimal.Nil.
Proof.
  destruct n as [|p]; [done|]. simpl. apply DecimalPos.Unsigned.to_uint_nonnil.
Qed.

(** Printing a number loses nothing. *)
Lemma number_to_string_inj n m :
  JS.number_to_string n = JS.number_to_string m -> n = m.
Proof.
  unfold JS.number_to_string. intros H.
  apply DecimalN.Unsigned.to_uint_inj.
  assert (Some (N.to_uint n) = Some (N.to_uint m)) as [= ?]; [|done].
  rewrite <- (NilZero.usu _ (to_uint_nonnil n)), <- (NilZero.usu _ (to_uint_nonnil m)).
  by rewrite H.
Qed.
End MoreStringFacts.

(** ** The avatar service *)

(** X1. [validateImage] accepts a file exactly when its size is at most
    5 MiB and its type is one of the three allowed ones. *)
Theorem validateImage_valid_iff (file : MulterFile) :
  valid (AvatarService.validateImage file) = true
  <-> size file <= 5 * 1024 * 1024
      /\ mimetype file ∈ ["image/jpeg"; "image/png"; "image/jpg"].
Proof.
  assert (valid (AvatarService.validateImage file)
          = bool_decide (length (errors (AvatarService.validateImage file)) = 0%nat)) as ->
    by reflexivity.
  rewrite validateImage_errors, bool_decide_eq_true.
  destruct (5 * 1024 * 1024 <? size file) eqn:Hsz.
  - apply N.ltb_lt in Hsz. split; [done|]. intros [? _]. lia.
  - apply N.ltb_ge in Hsz. case_bool_decide as Hty; simpl; split; try done.
    by intros [_ ?].
Qed.

(** X2. When the image library cannot decode the payload, the pipeline
    fails without having sent anything to the object store: the state is the
    one it started from. *)
Theorem uploadAvatar_undecodable_sends_nothing
    (env : Env) (w : World) (buf : Buffer) (userId : N) (s : Sys) (e : JsError) :
  sharp w buf = inl e ->
  AvatarService.uploadAvatar env w buf userId s
  = (Throw (Error "Failed to upload avatar"), s).
Proof. intros H. by rewrite uploadAvatar_run, H. Qed.

Lemma uploadAvatar_undecodable_sends_nothing_witness :
  AvatarService.uploadAvatar env0 w_undecodable [] 7 sys0
  = (Throw (Error "Failed to upload avatar"), sys0).
Proof.
  apply (uploadAvatar_undecodable_sends_nothing env0 w_undecodable [] 7 sys0
           (Error "Input buffer contains unsupported image format")).
  reflexivity.
Defined.

(** X3. A run of the pipeline sends at most one request, and that request is
    the put under the freshly generated key: it never deletes, so the object
    of an earlier upload stays in the store. *)
Theorem uploadAvatar_sends_at_most_one_put
    (env : Env) (w : World) (buf : Buffer) (userId : N) (s : Sys) :
  store_log (AvatarService.uploadAvatar env w buf userId s).2 = store_log s
  \/ exists img,
       store_log (AvatarService.uploadAvatar env w buf userId s).2
       = store_log s ++ [PutObject (R2_BUCKET_NAME env) (generated_key w userId) img
                           "image/jpeg" "public, max-age=31536000"
                           [("userId", JS.number_to_string userId);
                            ("uploadedAt", Date_toISOString w)]].
Proof.
  rewrite uploadAvatar_run. destruct (sharp w buf) as [e|img]; [by left|].
  right. exists img. by destruct (respond _ _ _).
Qed.

(** X4. Upload and delete fit together: the URL a successful upload returns,
    handed to [deleteAvatar] at any later time, that is in any state and with
    whatever the outside then answers, makes it send exactly one delete, for
    the same bucket and the very key the upload stored under; the result is
    true exactly when the store accepts that delete. *)
Theorem deleteAvatar_after_uploadAvatar
    (env : Env) (w w' : World) (buf : Buffer) (userId : N) (s s1 s2 : Sys)
    (url : string) :
  AvatarService.uploadAvatar env w buf userId s = (Return url, s1) ->
  (exists img, store_log s1
               = store_log s ++ [PutObject (R2_BUCKET_NAME env) (generated_key w userId) img
                                   "image/jpeg" "public, max-age=31536000"
                                   [("userId", JS.number_to_string userId);
                                    ("uploadedAt", Date_toISOString w)]])
  /\ AvatarService.deleteAvatar env w' (Some url) s2
     = (Return (bool_decide
                  (respond w' (store_log s2)
                     (DeleteObject (R2_BUCKET_NAME env) (generated_key w userId)) = None)),
        log_request s2 (DeleteObject (R2_BUCKET_NAME env) (generated_key w userId))).
Proof.
  rewrite uploadAvatar_run. destruct (sharp w buf) as [e|img]; [done|].
  destruct (respond w _ _); [done|]. intros [= <- <-].
  split; [by exists img|].
  rewrite deleteAvatar_run.
  assert (JS.truthy (Some (JS.template (R2_PUBLIC_URL env) +:+ "/" +:+ generated_key w userId))
          = Some (JS.template (R2_PUBLIC_URL env) +:+ "/" +:+ generated_key w userId)) as ->.
  { apply truthy_Some. split; [done|]. apply append_nonempty. }
  rewrite includes_app.
  assert (delete_command env
            (JS.template (R2_PUBLIC_URL env) +:+ "/" +:+ generated_key w userId)
          = DeleteObject (R2_BUCKET_NAME env) (generated_key w userId)) as ->.
  { unfold delete_command. by rewrite <- append_assoc, replace_app. }
  by destruct (respond w' _ _).
Qed.

Lemma deleteAvatar_after_uploadAvatar_witness :
  (exists img, store_log (log_request sys0 (put_command env0 w_ok jpeg_soi 7))
               = store_log sys0
                 ++ [PutObject (R2_BUCKET_NAME env0) (generated_key w_ok 7) img
                       "image/jpeg" "public, max-age=31536000"
                       [("userId", JS.number_to_string 7);
                        ("uploadedAt", Date_toISOString w_ok)]])
  /\ AvatarService.deleteAvatar env0 w_flaky
       (Some "https://current.example/avatars/7/1730000000123-00112233445566778899aabbccddeeff.jpg")
       sys1
     = (Return (bool_decide
                  (respond w_flaky (store_log sys1)
                     (DeleteObject (R2_BUCKET_NAME env0) (generated_key w_ok 7)) = None)),
        log_request sys1 (DeleteObject (R2_BUCKET_NAME env0) (generated_key w_ok 7))).
Proof.
  apply (deleteAvatar_after_uploadAvatar env0 w_ok w_flaky [] 7 sys0 _ sys1).
  reflexivity.
Defined.

(** X5. The generated key determines the user, the millisecond and the random
    suffix it was made from: two runs produce the same key only when all three
    coincide. *)
Theorem generated_key_inj (w w' : World) (userId userId' : N) :
  generated_key w userId = generated_key w' userId' ->
  userId = userId' /\ Date_now w = Date_now w'
  /\ randomBytes16_hex w = randomBytes16_hex w'.
Proof.
  unfold generated_key. intros H. apply append_inv_head in H.
  apply digits_split in H as (Hu & _ & H);
    [|apply number_to_string_digits|apply number_to_string_digits|done|done].
  apply digits_split in H as (Ht & _ & H);
    [|apply number_to_string_digits|apply number_to_string_digits|done|done].
  apply append_inv_tail in H.
  split_and!; [by apply number_to_string_inj|by apply number_to_string_inj|done].
Qed.

Lemma generated_key_inj_witness :
  7 = 7 /\ Date_now w_ok = Date_now w_store_down
  /\ randomBytes16_hex w_ok = randomBytes16_hex w_store_down.
Proof. apply (generated_key_inj w_ok w_store_down 7 7). reflexivity. Defined.

(** X6. Keys are scoped by user: the key generated for a user lies under the
    namespace [avatars/<id>/] of that user and of no other. *)
Theorem generated_key_namespace (w : World) (userId userId' : N) :
  JS.startsWith (generated_key w userId) (user_namespace userId') = true
  <-> userId = userId'.
Proof.
  unfold generated_key, user_namespace. rewrite startsWith_iff. split.
  - intros [r H]. rewrite !append_assoc in H. apply append_inv_head in H.
    apply digits_split in H as (Hu & _ & _);
      [|apply number_to_string_digits|apply number_to_string_digits|done|done].
    by apply number_to_string_inj.
  - intros <-. eexists. by rewrite !append_assoc.
Qed.

(** X7. A URL that contains the public base URL but nowhere the base followed
    by a slash is not skipped: [deleteAvatar] sends a delete whose key is the
    whole URL. *)
Theorem deleteAvatar_whole_url_as_key
    (env : Env) (w : World) (url : string) (s : Sys) :
  url <> "" ->
  JS.includes url (JS.template (R2_PUBLIC_URL env)) = true ->
  JS.includes url (JS.template (R2_PUBLIC_URL env) +:+ "/") = false ->
  store_log (AvatarService.deleteAvatar env w (Some url) s).2
  = store_log s ++ [DeleteObject (R2_BUCKET_NAME env) url].
Proof.
  intros Hne Hinc Hslash. rewrite deleteAvatar_run.
  rewrite (proj2 (truthy_Some (Some url) url)) by done. rewrite Hinc.
  unfold delete_command. rewrite replace_absent by done.
  by destruct (respond _ _ _).
Qed.

Lemma deleteAvatar_whole_url_as_key_witness :
  store_log (AvatarService.deleteAvatar env0 w_ok (Some "https://current.example") sys0).2
  = store_log sys0 ++ [DeleteObject (R2_BUCKET_NAME env0) "https://current.example"].
Proof.
  apply (deleteAvatar_whole_url_as_key env0 w_ok "https://current.example" sys0);
    [discriminate | reflexivity | reflexivity].
Defined.

(** ** The default avatar *)

Section Encoding.

Lemma N_of_hex_digit i :
  i < 16 -> N_of_ascii (JS.hex_digit i) = if i <? 10 then 48 + i else 55 + i.
Proof.
  intros Hi. unfold JS.hex_digit.
  destruct (i <? 10) eqn:E; apply N_ascii_embedding; [apply N.ltb_lt in E|]; lia.
Qed.

Lemma hex_digit_inj i j : i < 16 -> j < 16 -> JS.hex_digit i = JS.hex_digit j -> i = j.
Proof.
  intros Hi Hj H. apply (f_equal N_of_ascii) in H.
  rewrite !N_of_hex_digit in H by done.
  destruct (i <? 10) eqn:Ei, (j <? 10) eqn:Ej;
    rewrite ?N.ltb_lt, ?N.ltb_ge in *; lia.
Qed.

Lemma hex_digit_unreserved i : i < 16 -> JS.unreserved (JS.hex_digit i) = true.
Proof.
  intros Hi. unfold JS.unreserved. rewrite N_of_hex_digit by done.
  destruct (i <? 10) eqn:E; rewrite ?N.ltb_lt, ?N.ltb_ge in E.
  - assert ((48 <=? 48 + i) = true) as -> by (apply N.leb_le; lia).
    assert ((48 + i <=? 57) = true) as -> by (apply N.leb_le; lia).
    by rewrite !orb_true_r.
  - assert ((65 <=? 55 + i) = true) as -> by (apply N.leb_le; lia).
    assert ((55 + i <=? 90) = true) as -> by (apply N.leb_le; lia).
    done.
Qed.

Lemma N_of_ascii_lt c : N_of_ascii c < 256.
Proof. apply N_ascii_bounded. Qed.

Lemma percent_encode_inj a b : JS.percent_encode a = JS.percent_encode b -> a = b.
Proof.
  unfold JS.percent_encode. intros [= Hh Hl].
  pose proof (N_of_ascii_lt a). pose proof (N_of_ascii_lt b).
  apply hex_digit_inj in Hh; [|apply N.Div0.div_lt_upper_bound; lia..].
  apply hex_digit_inj in Hl; [|apply N.mod_lt; lia..].
  rewrite <- (ascii_N_embedding a), <- (ascii_N_embedding b). f_equal.
  rewrite (N.div_mod (N_of_ascii a) 16), (N.div_mod (N_of_ascii b) 16) by lia.
  by rewrite Hh, Hl.
Qed.

Lemma encodeURIComponent_unfold c s :
  JS.encodeURIComponent (String c s) =
  if JS.unreserved c then String c (JS.encodeURIComponent s)
  else String "%" (String (JS.hex_digit (N_of_ascii c / 16))
                    (String (JS.hex_digit (N_of_ascii c mod 16))
                       (JS.encodeURIComponent s))).
Proof. simpl. by destruct (JS.unreserved c). Qed.

Lemma encodeURIComponent_inj s t :
  JS.encodeURIComponent s = JS.encodeURIComponent t -> s = t.
Proof.
  revert t. induction s as [|a s IH]; intros [|b t].
  - done.
  - rewrite encodeURIComponent_unfold. simpl. by destruct (JS.unreserved b).
  - rewrite encodeURIComponent_unfold. simpl. by destruct (JS.unreserved a).
  - rewrite !encodeURIComponent_unfold.
    destruct (JS.unreserved a) eqn:Ha, (JS.unreserved b) eqn:Hb.
    + intros [= -> H]. f_equal. auto.
    + intros [= -> _]. done.
    + intros [= <- _]. done.
    + intros [= Hh Hl H]. f_equal; [|auto].
      apply percent_encode_inj. unfold JS.percent_encode. by rewrite Hh, Hl.
Qed.

Lemma encodeURIComponent_safe s :
  Forall (fun c => c = "%"%char \/ JS.unreserved c = true)
         (chars (JS.encodeURIComponent s)).
Proof.
  induction s as [|a s IH]; [constructor|].
  rewrite encodeURIComponent_unfold. pose proof (N_of_ascii_lt a).
  destruct (JS.unreserved a) eqn:Ha; simpl.
  - apply Forall_cons. auto.
  - apply Forall_cons. split; [by left|].
    apply Forall_cons. split.
    { right. apply hex_digit_unreserved. apply N.Div0.div_lt_upper_bound; lia. }
    apply Forall_cons. split; [|done].
    right. apply hex_digit_unreserved. apply N.mod_lt; lia.
Qed.
End Encoding.

(** X8. The name is escaped inside the default-avatar URL: between the fixed
    prefix and the fixed suffix there are only letters, digits, the marks
    [- _ . ! ~ * ' ( )] and percent signs, so a name cannot add a query
    parameter or a fragment of its own. *)
Theorem getDefaultAvatar_escapes_name (name : string) :
  exists e,
    AvatarService.getDefaultAvatar (Some name)
    = "https://ui-avatars.com/api/?name=" +:+ e +:+ "&background=random&size=400"
    /\ Forall (fun c => c = "%"%char \/ JS.unreserved c = true) (chars e)
    /\ ("&"%char ∉ chars e) /\ ("="%char ∉ chars e) /\ ("#"%char ∉ chars e)
    /\ (" "%char ∉ chars e).
Proof.
  exists (JS.encodeURIComponent name). split; [reflexivity|].
  pose proof (encodeURIComponent_safe name) as Hsafe. split; [done|].
  rewrite Forall_forall in Hsafe.
  split_and!; intros [?|?]%Hsafe; done.
Qed.

(** X9. Different names give different default-avatar URLs. *)
Theorem getDefaultAvatar_inj (name name' : string) :
  AvatarService.getDefaultAvatar (Some name) = AvatarService.getDefaultAvatar (Some name') ->
  name = name'.
Proof.
  unfold AvatarService.getDefaultAvatar. simpl default.
  intros H%append_inv_head%append_inv_tail. by apply encodeURIComponent_inj.
Qed.

Lemma getDefaultAvatar_inj_witness : "Ann Lee" = "Ann Lee".
Proof. apply (getDefaultAvatar_inj "Ann Lee" "Ann Lee"). reflexivity. Defined.

(** ** More on URL resolution *)

(** X10. A legacy URL that contains the legacy domain, but nowhere the domain
    followed by a slash, is not returned as it is: the whole legacy URL is
    handed to [constructUrl] as if it were a key. *)
Theorem getAvatarUrl_legacy_domain_without_slash
    (env : Env) (u : Users.row) (url old : string) :
  Users.avatar_key u = None ->
  Users.avatar_url u = Some url -> url <> "" ->
  OLD_R2_PUBLIC_URL env = Some old -> old <> "" ->
  JS.includes url old = true ->
  JS.includes url (old +:+ "/") = false ->
  User.getAvatarUrl env u = FileStorageService.constructUrl env url.
Proof.
  intros Hk Hu Hne Ho Hone Hinc Hslash.
  apply (getAvatarUrl_domain_without_slash env u url old); try done.
  - apply truthy_None. auto.
  - by apply truthy_Some.
  - by apply truthy_Some.
Qed.

Lemma getAvatarUrl_legacy_domain_without_slash_witness :
  User.getAvatarUrl env0
    (Users.mk 9 "cyd@example.org" None None (Some "https://old.example/files2/a.jpg"))
  = FileStorageService.constructUrl env0 "https://old.example/files2/a.jpg".
Proof.
  apply (getAvatarUrl_legacy_domain_without_slash env0 _
           "https://old.example/files2/a.jpg" "https://old.example/files");
    [reflexivity | reflexivity | discriminate | reflexivity | discriminate
    | reflexivity | reflexivity].
Defined.

(** ** More on the pre-destroy cleanup *)

(** X11. The hook returns normally for every registry, every user and every
    state, whatever the object store and the database answer, and it leaves the
    user table and the file ledger as they were. *)
Theorem beforeDestroy_always_returns
    (exports : list string) (w : World) (user : Users.row) (s : Sys) :
  exists s',
    User.beforeDestroy exports w user s = (Return tt, s')
    /\ users s' = users s /\ files s' = files s.
Proof. apply beforeDestroy_never_throws. Qed.

(** X12. The hook only ever asks for the user's own objects: every request it
    sends is a delete of the user's avatar key or of the key of a ledger row
    whose owner is that user. *)
Theorem beforeDestroy_only_own_objects
    (exports : list string) (w : World) (user : Users.row) (s : Sys) (r : StoreRequest) :
  r ∈ store_log (User.beforeDestroy exports w user s).2 ->
  r ∈ store_log s
  \/ (exists key, Users.avatar_key user = Some key /\ key <> "" /\ r = DeleteFile key)
  \/ (exists f, f ∈ files s /\ Files.uploaded_by f = Users.id user
                /\ r = DeleteFile (Files.file_key f)).
Proof.
  rewrite beforeDestroy_run. simpl. rewrite !elem_of_app.
  intros [?|[Ha|Hf]]; [by left|right; left|right; right].
  - unfold avatar_requests in Ha.
    destruct (JS.truthy (Users.avatar_key user)) as [key|] eqn:Hk;
      [|by apply elem_of_nil in Ha].
    apply truthy_Some in Hk as [Hk Hne]. apply list_elem_of_singleton in Ha.
    by exists key.
  - unfold file_requests in Hf. case_bool_decide; [|by apply elem_of_nil in Hf].
    destruct (findAll_rejects w); [by apply elem_of_nil in Hf|].
    apply list_elem_of_fmap in Hf as (f & -> & [Hown Hin]%list_elem_of_filter).
    by exists f.
Qed.

Lemma beforeDestroy_only_own_objects_witness :
  DeleteFile "avatars/7/a.jpg" ∈ store_log sys0
  \/ (exists key, Users.avatar_key ann = Some key /\ key <> ""
                  /\ DeleteFile "avatars/7/a.jpg" = DeleteFile key)
  \/ (exists f, f ∈ files sys0 /\ Files.uploaded_by f = Users.id ann
                /\ DeleteFile "avatars/7/a.jpg" = DeleteFile (Files.file_key f)).
Proof.
  apply (beforeDestroy_only_own_objects index.exports w_ok ann sys0).
  apply list_elem_of_singleton. reflexivity.
Defined.

(** X13. With a registry that exports the [File] model and a ledger query
    that succeeds, the hook sends the avatar's delete (when the key is not
    empty) and then one delete per row the user owns, in ledger order, whatever
    the store answers to any of them. *)
Theorem beforeDestroy_one_delete_per_target
    (exports : list string) (w : World) (user : Users.row) (s : Sys) :
  "File" ∈ exports -> findAll_rejects w = None ->
  store_log (User.beforeDestroy exports w user s).2
  = store_log s
    ++ match JS.truthy (Users.avatar_key user) with
       | Some key => [DeleteFile key]
       | None => []
       end
    ++ map (fun file => DeleteFile (Files.file_key file))
           (filter (fun f => Files.uploaded_by f = Users.id user) (files s)).
Proof. apply beforeDestroy_requests_with_File. Qed.

Lemma beforeDestroy_one_delete_per_target_witness :
  store_log (User.beforeDestroy ("File" :: index.exports) w_flaky ann sys0).2
  = store_log sys0
    ++ match JS.truthy (Users.avatar_key ann) with
       | Some key => [DeleteFile key]
       | None => []
       end
    ++ map (fun file => DeleteFile (Files.file_key file))
           (filter (fun f => Files.uploaded_by f = Users.id ann) (files sys0)).
Proof.
  apply (beforeDestroy_one_delete_per_target ("File" :: index.exports) w_flaky ann sys0);
    [apply list_elem_of_here | reflexivity].
Defined.

(** X14. When the registry does not export [File] (as [model/index.js] does
    not) or the ledger query rejects, the hook sends nothing for the owned
    files: besides the avatar's delete the store sees no request. *)
Theorem beforeDestroy_without_ledger
    (exports : list string) (w : World) (user : Users.row) (s : Sys) :
  "File" ∉ exports \/ findAll_rejects w <> None ->
  store_log (User.beforeDestroy exports w user s).2
  = store_log s
    ++ match JS.truthy (Users.avatar_key user) with
       | Some key => [DeleteFile key]
       | None => []
       end.
Proof.
  intros H. rewrite beforeDestroy_run. simpl. f_equal.
  unfold file_requests, avatar_requests.
  destruct H as [H|H].
  - rewrite (bool_decide_eq_false_2 _ H). apply app_nil_r.
  - destruct (findAll_rejects w); [|done].
    destruct (bool_decide _); apply app_nil_r.
Qed.

Lemma beforeDestroy_without_ledger_witness :
  store_log (User.beforeDestroy index.exports w_ok ann sys0).2
  = store_log sys0
    ++ match JS.truthy (Users.avatar_key ann) with
       | Some key => [DeleteFile key]
       | None => []
       end.
Proof.
  apply (beforeDestroy_without_ledger index.exports w_ok ann sys0).
  left. intros H. apply (bool_decide_eq_true_2 _) in H. discriminate H.
Defined.

(** ** More on the avatar handlers *)

Section MoreHandlers.
Variables (env : Env) (w : World).

(** Every run of the removal handler, by cases. *)
Lemma deleteAvatar_handler_cases req s :
  ProfileController.deleteAvatar env w req s =
  match findByPk_rejects w with
  | Some e => (next e, s)
  | None =>
      match users s !! req_user_id req with
      | None => (next (TypeError "Cannot set properties of null (setting 'avatar_url')"), s)
      | Some user =>
          match save_rejects w with
          | Some e => (next e, s)
          | None =>
              (json 200 "Avatar removed successfully"
                 (Some (User.getAvatarUrl env (ProfileController.set_avatar_url user None))),
               write_row s user None)
          end
      end
  end.
Proof.
  unfold ProfileController.deleteAvatar, handle, bind, User.findByPk, User.save, rejects.
  destruct (findByPk_rejects w); [reflexivity|]. simpl.
  destruct (users s !! req_user_id req); [|reflexivity].
  by destruct (save_rejects w).
Qed.

(** Every run of the upload handler, by cases. *)
Lemma uploadAvatar_handler_cases req s :
  ProfileController.uploadAvatar w req s =
  match req_file req with
  | None => (json 400 "No file uploaded" None, s)
  | Some file =>
      match findByPk_rejects w with
      | Some e => (next e, s)
      | None =>
          match users s !! req_user_id req with
          | None => (next (TypeError "Cannot set properties of null (setting 'avatar_url')"), s)
          | Some user =>
              match save_rejects w with
              | Some e => (next e, s)
              | None =>
                  (json 200 "Avatar uploaded successfully" (path file),
                   write_row s user (ProfileController.saved_avatar_url user (path file)))
              end
          end
      end
  end.
Proof.
  unfold ProfileController.uploadAvatar, handle.
  destruct (req_file req); [|reflexivity].
  unfold bind, User.findByPk, User.save, rejects.
  destruct (findByPk_rejects w); [reflexivity|]. simpl.
  destruct (users s !! req_user_id req); [|reflexivity].
  by destruct (save_rejects w).
Qed.

Lemma write_row_lookup_ne s user v k :
  k <> Users.id user -> users (write_row s user v) !! k = users s !! k.
Proof. intros Hk. unfold write_row. simpl. by rewrite lookup_insert_ne. Qed.

Lemma write_row_consistent s user v : consistent s -> consistent (write_row s user v).
Proof.
  intros Hs k u. unfold write_row. simpl.
  destruct (decide (Users.id user = k)) as [<-|Hne].
  - rewrite lookup_insert_eq. by intros [= <-].
  - rewrite lookup_insert_ne by done. apply Hs.
Qed.
End MoreHandlers.

(** X15. When the removal handler cannot do its work, because the lookup
    rejects, the user does not exist or the save rejects, it hands an error to
    [next] and leaves the state exactly as it was. *)
Theorem deleteAvatar_handler_failure_keeps_state
    (env : Env) (w : World) (req : Request) (s : Sys) :
  findByPk_rejects w <> None \/ users s !! req_user_id req = None
  \/ save_rejects w <> None ->
  exists e, ProfileController.deleteAvatar env w req s = (next e, s).
Proof.
  rewrite deleteAvatar_handler_cases.
  destruct (findByPk_rejects w) as [e|]; [by exists e|].
  destruct (users s !! req_user_id req) as [user|]; [|by eexists].
  destruct (save_rejects w) as [e|]; [by exists e|].
  intros [?|[?|?]]; done.
Qed.

Lemma deleteAvatar_handler_failure_keeps_state_witness :
  exists e, ProfileController.deleteAvatar env0 w_ok req_bob sys0 = (next e, sys0).
Proof.
  apply (deleteAvatar_handler_failure_keeps_state env0 w_ok req_bob sys0).
  right. left. reflexivity.
Defined.

(** X16. A request without a file is answered with status 400 and "No file
    uploaded" before the database is consulted: the answer and the untouched
    state are the same whether or not the database is reachable. *)
Theorem uploadAvatar_handler_without_file (w : World) (req : Request) (s : Sys) :
  req_file req = None ->
  ProfileController.uploadAvatar w req s = (json 400 "No file uploaded" None, s).
Proof. intros H. by rewrite uploadAvatar_handler_cases, H. Qed.

Lemma uploadAvatar_handler_without_file_witness :
  ProfileController.uploadAvatar w_db_down req_ann sys0
  = (json 400 "No file uploaded" None, sys0).
Proof. apply (uploadAvatar_handler_without_file w_db_down req_ann sys0). reflexivity. Defined.

(** X17. On a table in which every row sits under its own id, both avatar
    handlers keep that property, leave the rows of all other users, the file
    ledger and the requests to the object store untouched, and leave the id,
    email, name and avatar_key of the requesting user's row as they were. *)
Theorem avatar_handlers_frame (env : Env) (w : World) (req : Request) (s : Sys) :
  consistent s ->
  keeps_all_but_avatar_url req s (ProfileController.deleteAvatar env w req s).2
  /\ keeps_all_but_avatar_url req s (ProfileController.uploadAvatar w req s).2.
Proof.
  intros Hs.
  assert (forall s', s' = s \/ (exists u v, users s !! req_user_id req = Some u
                                           /\ s' = write_row s u v) ->
                     keeps_all_but_avatar_url req s s') as Hframe.
  { intros s' [->|(u & v & Hu & ->)]; unfold keeps_all_but_avatar_url.
    - split_and!; try done. intros u Hu. by exists u.
    - pose proof (Hs _ _ Hu) as Hid.
      split_and!; try done.
      + by apply write_row_consistent.
      + intros k Hk. apply write_row_lookup_ne. congruence.
      + intros u' Hu'. assert (u' = u) as -> by congruence.
        exists (ProfileController.set_avatar_url u v).
        unfold write_row. simpl. by rewrite Hid, lookup_insert_eq. }
  split; apply Hframe.
  - rewrite deleteAvatar_handler_cases.
    destruct (findByPk_rejects w); [by left|].
    destruct (users s !! req_user_id req) as [u|] eqn:Hu; [|by left].
    destruct (save_rejects w); [by left|]. right. by exists u, None.
  - rewrite uploadAvatar_handler_cases.
    destruct (req_file req) as [file|]; [|by left].
    destruct (findByPk_rejects w); [by left|].
    destruct (users s !! req_user_id req) as [u|] eqn:Hu; [|by left].
    destruct (save_rejects w); [by left|]. right.
    by exists u, (ProfileController.saved_avatar_url u (path file)).
Qed.

Lemma sys1_consistent : consistent sys1.
Proof.
  intros k u. unfold sys1. simpl.
  rewrite !lookup_insert, lookup_singleton.
  repeat case_decide; intros [= <-]; by subst.
Qed.

Lemma avatar_handlers_frame_witness :
  keeps_all_but_avatar_url req_ann_upload sys1
    (ProfileController.deleteAvatar env0 w_ok req_ann_upload sys1).2
  /\ keeps_all_but_avatar_url req_ann_upload sys1
       (ProfileController.uploadAvatar w_ok req_ann_upload sys1).2.
Proof.
  apply (avatar_handlers_frame env0 w_ok req_ann_upload sys1). apply sys1_consistent.
Defined.

(** X18. Removing the avatar twice is the same as removing it once: the second
    run gives the same answer and leaves the same state. *)
Theorem deleteAvatar_handler_idempotent (env : Env) (w : World) (req : Request) (s : Sys) :
  ProfileController.deleteAvatar env w req (ProfileController.deleteAvatar env w req s).2
  = ProfileController.deleteAvatar env w req s.
Proof.
  rewrite (deleteAvatar_handler_cases env w req s).
  destruct (findByPk_rejects w) as [e|] eqn:Hf;
    [by rewrite deleteAvatar_handler_cases, Hf|].
  destruct (users s !! req_user_id req) as [u|] eqn:Hu;
    [|by simpl; rewrite deleteAvatar_handler_cases, Hf, Hu].
  destruct (save_rejects w) as [e|] eqn:Hsv;
    [by simpl; rewrite deleteAvatar_handler_cases, Hf, Hu, Hsv|].
  simpl. rewrite deleteAvatar_handler_cases, Hf, Hsv.
  destruct (decide (Users.id u = req_user_id req)) as [Hid|Hid].
  - assert (users (write_row s u None) !! req_user_id req
            = Some (ProfileController.set_avatar_url u None)) as ->.
    { unfold write_row. simpl. by rewrite <- Hid, lookup_insert_eq. }
    f_equal. unfold write_row. simpl. f_equal. apply insert_insert_eq.
  - rewrite write_row_lookup_ne, Hu by done.
    f_equal. unfold write_row. simpl. f_equal. apply insert_insert_eq.
Qed.

(** X19. For a user without an avatar key (null or empty), the removal handler
    does answer with the default avatar, made from the name or, without a name,
    from the email. *)
Theorem deleteAvatar_handler_default_without_key
    (env : Env) (w : World) (req : Request) (s : Sys) (u : Users.row) :
  findByPk_rejects w = None -> save_rejects w = None ->
  users s !! req_user_id req = Some u ->
  Users.avatar_key u = None \/ Users.avatar_key u = Some "" ->
  (ProfileController.deleteAvatar env w req s).1
  = json 200 "Avatar removed successfully"
      (Some (AvatarService.getDefaultAvatar
               (Some (JS.or_else (Users.name u) (Users.email u))))).
Proof.
  intros Hf Hsv Hu Hk. rewrite deleteAvatar_handler_cases, Hf, Hu, Hsv. simpl.
  rewrite getAvatarUrl_tier3; [done|by apply truthy_None|done].
Qed.

Lemma deleteAvatar_handler_default_without_key_witness :
  (ProfileController.deleteAvatar env0 w_ok req_bob sys1).1
  = json 200 "Avatar removed successfully"
      (Some (AvatarService.getDefaultAvatar
               (Some (JS.or_else (Users.name bob) (Users.email bob))))).
Proof.
  apply (deleteAvatar_handler_default_without_key env0 w_ok req_bob sys1 bob);
    [reflexivity | reflexivity | | left; reflexivity].
  unfold sys1. simpl. rewrite lookup_insert_ne by done. apply lookup_insert_eq.
Defined.

(** ** The upload route and the validation *)

(** X20. The service's validation and the route's upload middleware draw the
    same line: [validateImage] accepts exactly the files whose type passes the
    route's [fileFilter] and whose size is within the route's [fileSize]
    limit. *)
Theorem validateImage_agrees_with_route (file : MulterFile) :
  valid (AvatarService.validateImage file) = true
  <-> ProfileRoutes.fileFilter (mimetype file) = Return true
      /\ size file <= ProfileRoutes.fileSize.
Proof.
  assert (valid (AvatarService.validateImage file)
          = bool_decide (length (errors (AvatarService.validateImage file)) = 0%nat)) as ->
    by reflexivity.
  rewrite validateImage_errors, bool_decide_eq_true.
  unfold ProfileRoutes.fileFilter, ProfileRoutes.fileSize.
  destruct (5 * 1024 * 1024 <? size file) eqn:Hsz.
  - apply N.ltb_lt in Hsz. split; [done|]. intros [_ ?]. lia.
  - apply N.ltb_ge in Hsz. case_bool_decide; simpl; split; try done.
    by intros [? _].
Qed.

(** ** The other instance methods of a user *)

(** X21. A user can change the password exactly when the provider is null,
    empty or ['local']; with any other provider the user counts as an OAuth
    user and cannot. *)
Theorem canChangePassword_iff (u : UserMethods.instance) :
  UserMethods.canChangePassword u = true
  <-> UserMethods.provider u = None \/ UserMethods.provider u = Some ""
      \/ UserMethods.provider u = Some "local".
Proof.
  unfold UserMethods.canChangePassword, UserMethods.isOAuthUser.
  destruct (UserMethods.provider u) as [[|c p]|]; cbn -[String.eqb].
  - split; auto.
  - destruct (String.eqb (String c p) "local") eqn:E; cbn -[String.eqb].
    + apply String.eqb_eq in E. rewrite E. split; auto.
    + apply String.eqb_neq in E. split; [done|].
      intros [?|[?|?]]; congruence.
  - split; auto.
Qed.

(** ** Viewing a profile *)

Section Objects.

Lemma assoc_omap_notin (fields : list (string * option JsValue)) k :
  k ∉ fields.*1 -> Json.get (Json.object fields) k = None.
Proof.
  unfold Json.object, Json.get.
  induction fields as [|[k' [v|]] fields IH]; simpl; intros Hk; [done| |].
  - apply not_elem_of_cons in Hk as [Hne Hk].
    apply String.eqb_neq in Hne. rewrite Hne. auto.
  - apply not_elem_of_cons in Hk as [_ Hk]. auto.
Qed.

Lemma owner_only_not_message k text :
  k ∈ owner_only_keys -> Json.get (ProfileView.message text) k = None.
Proof.
  intros Hk. apply assoc_omap_notin. simpl.
  intros ->%list_elem_of_singleton.
  unfold owner_only_keys in Hk.
  repeat (apply elem_of_cons in Hk as [Hk|Hk]; [discriminate|]).
  by apply elem_of_nil in Hk.
Qed.

Lemma owner_only_not_public env t k :
  k ∈ owner_only_keys -> Json.get (ProfileView.public_body env t) k = None.
Proof.
  intros Hk. apply assoc_omap_notin. simpl.
  unfold owner_only_keys in Hk.
  repeat (apply elem_of_cons in Hk as [->|Hk];
          [intros H; repeat (apply elem_of_cons in H as [H|H]; [discriminate|]);
           by apply elem_of_nil in H|]).
  by apply elem_of_nil in Hk.
Qed.

(** Every run of [getProfile] that finds a user, by cases. *)
Lemma getProfile_found env pw targetUserId requesterId t :
  findByPk_include pw targetUserId = inr (Some t) ->
  ProfileView.getProfile env pw targetUserId requesterId =
  if negb (String.eqb (UserMethods.account_status (account t)) "active") then
    reply 403 (ProfileView.message "This account is no longer available")
  else if is_owner pw targetUserId requesterId then
    match findUserGuardians pw targetUserId with
    | inl error => reply_next error
    | inr guardians => reply 200 (ProfileView.own_body env t guardians)
    end
  else if negb (UserMethods.is_profile_public (account t)) then
    reply 403 (ProfileView.message "This profile is private")
  else reply 200 (ProfileView.public_body env t).
Proof. intros H. unfold ProfileView.getProfile. by rewrite H. Qed.
End Objects.

(** X22. An account that is not active is not shown to anybody, its owner
    included: the answer is 403, "This account is no longer available". *)
Theorem getProfile_inactive_account
    (env : Env) (pw : ProfileWorld) (targetUserId : string) (requesterId : option N)
    (t : TargetUser) :
  findByPk_include pw targetUserId = inr (Some t) ->
  UserMethods.account_status (account t) <> "active" ->
  ProfileView.getProfile env pw targetUserId requesterId
  = reply 403 (ProfileView.message "This account is no longer available").
Proof.
  intros Hf Hs. rewrite (getProfile_found env pw _ _ t Hf).
  apply String.eqb_neq in Hs. by rewrite Hs.
Qed.

Lemma getProfile_inactive_account_witness :
  ProfileView.getProfile env0 pw0 "8" (Some 8)
  = reply 403 (ProfileView.message "This account is no longer available").
Proof.
  apply (getProfile_inactive_account env0 pw0 "8" (Some 8)
           {| account := bob_account; profile := None; privacySettings := None |});
    [reflexivity | discriminate].
Defined.

(** X23. Only the owner is sent the owner's data: whenever an answer carries
    one of the keys email, role, account_status, created_at, profile,
    guardians or privacy_settings, the request came with a requester id that
    the handler found equal to the route parameter.  A request without a
    requester never gets any of them. *)
Theorem getProfile_owner_data_only_to_owner
    (env : Env) (pw : ProfileWorld) (targetUserId : string) (requesterId : option N)
    (status : N) (body : JsValue) (k : string) :
  ProfileView.getProfile env pw targetUserId requesterId = reply status body ->
  k ∈ owner_only_keys ->
  Json.get body k <> None ->
  exists id, requesterId = Some id /\ loose_eq pw targetUserId id = true.
Proof.
  intros Hrun Hk Hget.
  destruct (findByPk_include pw targetUserId) as [e|[t|]] eqn:Hf.
  - unfold ProfileView.getProfile in Hrun. by rewrite Hf in Hrun.
  - rewrite (getProfile_found env pw _ _ t Hf) in Hrun.
    destruct (negb _); [|destruct (is_owner pw targetUserId requesterId) eqn:Ho].
    + injection Hrun as <- <-. by rewrite owner_only_not_message in Hget.
    + unfold is_owner in Ho. destruct requesterId as [id|]; [|done]. by exists id.
    + destruct (negb _); injection Hrun as <- <-.
      * by rewrite owner_only_not_message in Hget.
      * by rewrite owner_only_not_public in Hget.
  - unfold ProfileView.getProfile in Hrun. rewrite Hf in Hrun.
    injection Hrun as <- <-. by rewrite owner_only_not_message in Hget.
Qed.

Lemma getProfile_owner_data_only_to_owner_witness :
  exists id, Some 7 = Some id /\ loose_eq pw0 "7" id = true.
Proof.
  apply (getProfile_owner_data_only_to_owner env0 pw0 "7" (Some 7) 200
           (ProfileView.own_body env0
              {| account := ann_account; profile := Some ann_profile;
                 privacySettings := None |} [])
           "email");
    [reflexivity | apply list_elem_of_here | discriminate].
Defined.

(** X24. A private profile of an active account is closed to everybody but
    the owner: a request without a requester, or with one the handler does not
    find equal to the route parameter, is answered 403, "This profile is
    private". *)
Theorem getProfile_private_profile
    (env : Env) (pw : ProfileWorld) (targetUserId : string) (requesterId : option N)
    (t : TargetUser) :
  findByPk_include pw targetUserId = inr (Some t) ->
  UserMethods.account_status (account t) = "active" ->
  UserMethods.is_profile_public (account t) = false ->
  is_owner pw targetUserId requesterId = false ->
  ProfileView.getProfile env pw targetUserId requesterId
  = reply 403 (ProfileView.message "This profile is private").
Proof.
  intros Hf Hs Hp Ho. rewrite (getProfile_found env pw _ _ t Hf).
  by rewrite Hs, Ho, Hp.
Qed.

Lemma getProfile_private_profile_witness :
  ProfileView.getProfile env0 pw0 "7" None
  = reply 403 (ProfileView.message "This profile is private").
Proof.
  apply (getProfile_private_profile env0 pw0 "7" None
           {| account := ann_account; profile := Some ann_profile;
              privacySettings := None |}); reflexivity.
Defined.

(** X25. The public view of a user without a profile row falls back on the
    account: display_name is the account name (null when there is none), bio
    and sex are null, avatar_url is the resolved avatar URL. *)
Theorem getProfile_public_without_profile
    (env : Env) (pw : ProfileWorld) (targetUserId : string) (requesterId : option N)
    (t : TargetUser) :
  findByPk_include pw targetUserId = inr (Some t) ->
  UserMethods.account_status (account t) = "active" ->
  UserMethods.is_profile_public (account t) = true ->
  is_owner pw targetUserId requesterId = false ->
  profile t = None ->
  ProfileView.getProfile env pw targetUserId requesterId
  = reply 200
      (JObject
         [("id", Json.of_number (Users.id (UserMethods.row (account t))));
          ("display_name", Json.of_string (Users.name (UserMethods.row (account t))));
          ("bio", JNull);
          ("sex", JNull);
          ("avatar_url", JString (User.getAvatarUrl env (UserMethods.row (account t))));
          ("is_profile_public", JBool true);
          ("achievements", JArray [])]).
Proof.
  intros Hf Hs Hp Ho Hprof. rewrite (getProfile_found env pw _ _ t Hf).
  rewrite Hs, Ho, Hp. simpl. unfold ProfileView.public_body. by rewrite Hprof.
Qed.

Lemma getProfile_public_without_profile_witness :
  ProfileView.getProfile env0 pw0 "9" (Some 7)
  = reply 200
      (JObject
         [("id", Json.of_number (Users.id (UserMethods.row cyd_account)));
          ("display_name", Json.of_string (Users.name (UserMethods.row cyd_account)));
          ("bio", JNull);
          ("sex", JNull);
          ("avatar_url", JString (User.getAvatarUrl env0 (UserMethods.row cyd_account)));
          ("is_profile_public", JBool true);
          ("achievements", JArray [])]).
Proof.
  apply (getProfile_public_without_profile env0 pw0 "9" (Some 7)
           {| account := cyd_account; profile := None; privacySettings := None |});
    reflexivity.
Defined.

(** ** Updating a profile *)

Section Updates.
Implicit Types (p : Attrs) (l : list (string * option JsValue)).

Lemma to_boolean_false_get_opt a f :
  Json.to_boolean a = false -> Json.get_opt a f = None.
Proof. by destruct a as [[]|]. Qed.

Lemma lookup_assign k' v p k :
  ProfileUpdate.assign k' v p !! k
  = match (if String.eqb k k' then v else None) with
    | Some x => Some x
    | None => p !! k
    end.
Proof.
  unfold ProfileUpdate.assign. destruct (String.eqb k k') eqn:E.
  - apply String.eqb_eq in E as ->. destruct v; [apply lookup_insert_eq|done].
  - apply String.eqb_neq in E. destruct v; [|done]. by rewrite lookup_insert_ne.
Qed.

Lemma lookup_sent_notin k l : k ∉ l.*1 -> lookup_sent k l = None.
Proof.
  induction l as [|[k' v] l IH]; simpl; [done|].
  intros [Hne Hk]%not_elem_of_cons. apply String.eqb_neq in Hne. rewrite Hne. auto.
Qed.

(** Assigning a table of distinct attributes: each attribute ends with the
    value sent for it, or keeps its own. *)
Lemma fold_assign_lookup l p k :
  NoDup l.*1 ->
  fold_left (fun p kv => ProfileUpdate.assign kv.1 kv.2 p) l p !! k
  = match lookup_sent k l with
    | Some x => Some x
    | None => p !! k
    end.
Proof.
  revert p. induction l as [|[k' v] l IH]; intros p; simpl; [done|].
  intros [Hk' Hl]%NoDup_cons. rewrite IH by done.
  destruct (String.eqb k k') eqn:E.
  - apply String.eqb_eq in E as ->.
    rewrite (lookup_sent_notin _ _ Hk'), lookup_assign, String.eqb_refl. done.
  - destruct (lookup_sent k l); [done|]. by rewrite lookup_assign, E.
Qed.

Lemma update_fields_fold body p :
  ProfileUpdate.update_fields body p
  = fold_left (fun p kv => ProfileUpdate.assign kv.1 kv.2 p) (assignments body) p.
Proof.
  unfold ProfileUpdate.update_fields, assignments. cbv zeta.
  destruct (Json.to_boolean (Json.get body "address")) eqn:Ha,
           (Json.to_boolean (Json.get body "emergency_contact")) eqn:Hc;
    simpl;
    rewrite ?(to_boolean_false_get_opt _ _ Ha), ?(to_boolean_false_get_opt _ _ Hc);
    reflexivity.
Qed.

Lemma updatable_NoDup : NoDup updatable.
Proof. by apply (bool_decide_unpack _). Qed.

(** What the assignments leave in each attribute. *)
Lemma update_fields_lookup body p k :
  ProfileUpdate.update_fields body p !! k
  = match sent body k with
    | Some x => Some x
    | None => p !! k
    end.
Proof.
  rewrite update_fields_fold. apply fold_assign_lookup. apply updatable_NoDup.
Qed.

Lemma sent_not_updatable body k : k ∉ updatable -> sent body k = None.
Proof. intros Hk. by apply lookup_sent_notin. Qed.

Lemma update_fields_idempotent body p :
  ProfileUpdate.update_fields body (ProfileUpdate.update_fields body p)
  = ProfileUpdate.update_fields body p.
Proof.
  apply map_eq. intros k. rewrite !update_fields_lookup.
  by destruct (sent body k).
Qed.

(** Every run of [updateProfile] with a requester and a body, by cases. *)
Lemma updateProfile_run uw userId body table :
  body <> JNull ->
  ProfileUpdate.updateProfile uw (Some userId) (Some body) table =
  match findOne_rejects uw with
  | Some error => (reply_next error, table)
  | None =>
      match table !! userId with
      | Some profile => save_and_answer uw userId body profile table
      | None =>
          match create_returns uw userId with
          | inl error => (reply_next error, table)
          | inr profile =>
              save_and_answer uw userId body profile (<[userId := profile]> table)
          end
      end
  end.
Proof.
  intros Hb. unfold ProfileUpdate.updateProfile, save_and_answer.
  destruct body; try done;
    (destruct (findOne_rejects uw); [done|];
     destruct (table !! userId); [done|];
     by destruct (create_returns uw userId)).
Qed.
End Updates.

(** X26. An update is partial: after a successful run on an existing profile,
    every attribute the body sends a value for (null included) holds that
    value, and every other attribute holds what it held before.  The address
    and emergency-contact attributes are sent through the nested [address] and
    [emergency_contact] objects. *)
Theorem updateProfile_partial_update
    (uw : UpdateWorld) (userId : N) (body : JsValue) (table : Profiles) (old : Attrs) :
  body <> JNull ->
  findOne_rejects uw = None -> profile_save_rejects uw = None ->
  table !! userId = Some old ->
  exists new,
    (ProfileUpdate.updateProfile uw (Some userId) (Some body) table).2 !! userId = Some new
    /\ (forall k, new !! k = match sent body k with
                             | Some v => Some v
                             | None => old !! k
                             end)
    /\ sent body "bio" = Json.get body "bio"
    /\ sent body "address_line1" = Json.get_opt (Json.get body "address") "line1"
    /\ sent body "emergency_contact_phone"
       = Json.get_opt (Json.get body "emergency_contact") "phone".
Proof.
  intros Hb Hf Hs Ho. rewrite updateProfile_run by done.
  rewrite Hf, Ho. unfold save_and_answer. rewrite Hs. simpl.
  exists (ProfileUpdate.update_fields body old). rewrite lookup_insert_eq.
  split; [done|]. split; [apply update_fields_lookup|done].
Qed.

Lemma updateProfile_partial_update_witness :
  exists new,
    (ProfileUpdate.updateProfile uw_ok (Some 7) (Some body0) profiles0).2 !! 7 = Some new
    /\ (forall k, new !! k
                  = match sent body0 k with
                    | Some v => Some v
                    | None => ann_attrs !! k
                    end)
    /\ sent body0 "bio" = Json.get body0 "bio"
    /\ sent body0 "address_line1" = Json.get_opt (Json.get body0 "address") "line1"
    /\ sent body0 "emergency_contact_phone"
       = Json.get_opt (Json.get body0 "emergency_contact") "phone".
Proof.
  apply (updateProfile_partial_update uw_ok 7 body0 profiles0);
    [discriminate | reflexivity | reflexivity | apply lookup_singleton_eq].
Defined.

(** X27. Only the fifteen profile attributes can be changed through the
    handler: whatever the body names, every other attribute of every stored
    profile (its user_id, for one) is after the run what it was before. *)
Theorem updateProfile_only_updatable
    (uw : UpdateWorld) (user : option N) (body : option JsValue) (table : Profiles)
    (userId : N) (old new : Attrs) (k : string) :
  table !! userId = Some old ->
  (ProfileUpdate.updateProfile uw user body table).2 !! userId = Some new ->
  k ∉ updatable ->
  new !! k = old !! k.
Proof.
  intros Ho Hn Hk.
  assert (forall b, b <> JNull ->
            forall t, (ProfileUpdate.updateProfile uw user (Some b) table).2 = t ->
                      t !! userId = Some new -> new !! k = old !! k) as Hcase.
  { intros b Hb t <-. destruct user as [uid|]; [|simpl; congruence].
    rewrite updateProfile_run by done.
    destruct (findOne_rejects uw); [simpl; congruence|].
    destruct (table !! uid) as [p|] eqn:Hp.
    - unfold save_and_answer. destruct (profile_save_rejects uw); [simpl; congruence|].
      simpl. destruct (decide (uid = userId)) as [->|Hne].
      + rewrite lookup_insert_eq. intros [= <-].
        rewrite update_fields_lookup, (sent_not_updatable _ _ Hk). congruence.
      + rewrite lookup_insert_ne by done. congruence.
    - assert (uid <> userId) as Hne by congruence.
      destruct (create_returns uw uid) as [e|c]; [simpl; congruence|].
      unfold save_and_answer. destruct (profile_save_rejects uw); simpl;
        rewrite ?lookup_insert_ne by done; congruence. }
  destruct body as [b|].
  - assert (b = JNull \/ b <> JNull) as [->|Hb] by (destruct b; auto).
    + destruct user; simpl in Hn; congruence.
    + by apply (Hcase b Hb _ eq_refl).
  - destruct user; simpl in Hn; congruence.
Qed.

Lemma updateProfile_only_updatable_witness :
  ProfileUpdate.update_fields body0 ann_attrs !! "user_id" = ann_attrs !! "user_id".
Proof.
  apply (updateProfile_only_updatable uw_ok (Some 7) (Some body0) profiles0 7).
  - apply lookup_singleton_eq.
  - rewrite updateProfile_run by discriminate.
    change (findOne_rejects uw_ok) with (@None JsError).
    unfold profiles0. rewrite lookup_singleton_eq.
    unfold save_and_answer. change (profile_save_rejects uw_ok) with (@None JsError).
    simpl. apply lookup_insert_eq.
  - intros H. apply (bool_decide_eq_true_2 _) in H. discriminate H.
Defined.

(** X28. An update only ever touches the requester's own profile: whatever
    the body and whatever the database answers, the profile of every other
    user is after the run what it was before. *)
Theorem updateProfile_other_profiles_untouched
    (uw : UpdateWorld) (userId : N) (body : option JsValue) (table : Profiles) (other : N) :
  other <> userId ->
  (ProfileUpdate.updateProfile uw (Some userId) body table).2 !! other = table !! other.
Proof.
  intros Hne. destruct body as [b|]; [|done].
  assert (b = JNull \/ b <> JNull) as [->|Hb] by (destruct b; auto); [done|].
  rewrite updateProfile_run by done.
  destruct (findOne_rejects uw); [done|].
  unfold save_and_answer.
  destruct (table !! userId).
  - destruct (profile_save_rejects uw); simpl; [done|]. by rewrite lookup_insert_ne.
  - destruct (create_returns uw userId); [done|].
    destruct (profile_save_rejects uw); simpl; by rewrite ?lookup_insert_ne.
Qed.

Lemma updateProfile_other_profiles_untouched_witness :
  (ProfileUpdate.updateProfile uw_ok (Some 8) (Some body0) profiles0).2 !! 7
  = profiles0 !! 7.
Proof.
  apply (updateProfile_other_profiles_untouched uw_ok 8 (Some body0) profiles0 7).
  discriminate.
Defined.

(** X29. Sending the same update twice is the same as sending it once: the
    second run gives the same answer and leaves the same table, in every state
    and whatever the database answers. *)
Theorem updateProfile_idempotent
    (uw : UpdateWorld) (user : option N) (body : option JsValue) (table : Profiles) :
  ProfileUpdate.updateProfile uw user body
    (ProfileUpdate.updateProfile uw user body table).2
  = ProfileUpdate.updateProfile uw user body table.
Proof.
  destruct user as [userId|]; [|done].
  destruct body as [b|]; [|done].
  assert (b = JNull \/ b <> JNull) as [->|Hb] by (destruct b; auto); [done|].
  rewrite (updateProfile_run uw userId b table) by done.
  destruct (findOne_rejects uw) as [e|] eqn:Hf;
    [by cbn [snd]; rewrite updateProfile_run, Hf|].
  assert (forall p t,
            t !! userId = Some p ->
            ProfileUpdate.updateProfile uw (Some userId) (Some b)
              (save_and_answer uw userId b p t).2
            = save_and_answer uw userId b p t) as Hsave.
  { intros p t Hp. rewrite updateProfile_run, Hf by done.
    unfold save_and_answer at 1.
    destruct (profile_save_rejects uw) as [e|] eqn:Hs; cbn [snd].
    - rewrite Hp. unfold save_and_answer. by rewrite Hs.
    - rewrite lookup_insert_eq. unfold save_and_answer. rewrite Hs.
      rewrite update_fields_idempotent. cbn [snd]. by rewrite insert_insert_eq. }
  destruct (table !! userId) as [p|] eqn:Hp; [by apply Hsave|].
  destruct (create_returns uw userId) as [e|c] eqn:Hc.
  - cbn [snd]. by rewrite updateProfile_run, Hf, Hp, Hc.
  - rewrite Hsave by apply lookup_insert_eq. done.
Qed.

(** X30. A profile that did not exist is created before the update is saved,
    and it stays: when [UserProfile.create] succeeds and the save then
    rejects, the handler answers with the error, yet the table holds the
    created profile, without any of the values of the body. *)
Theorem updateProfile_created_profile_stays
    (uw : UpdateWorld) (userId : N) (body : JsValue) (table : Profiles)
    (created : Attrs) (e : JsError) :
  body <> JNull ->
  findOne_rejects uw = None ->
  table !! userId = None ->
  create_returns uw userId = inr created ->
  profile_save_rejects uw = Some e ->
  ProfileUpdate.updateProfile uw (Some userId) (Some body) table
  = (reply_next e, <[userId := created]> table).
Proof.
  intros Hb Hf Hp Hc Hs. rewrite updateProfile_run, Hf, Hp, Hc by done.
  unfold save_and_answer. by rewrite Hs.
Qed.

Lemma updateProfile_created_profile_stays_witness :
  ProfileUpdate.updateProfile uw_save_fails (Some 8) (Some body0) profiles0
  = (reply_next (Error "Validation error"),
     <[8 := {[ "user_id" := Json.of_number 8 ]}]> profiles0).
Proof.
  apply (updateProfile_created_profile_stays uw_save_fails 8 body0 profiles0);
    [discriminate | reflexivity | | reflexivity | reflexivity].
  unfold profiles0. by apply lookup_singleton_ne.
Defined.
